(** * go-bank: the token maker and the authorization middleware

    A shallow embedding of [token/jwt_maker.go] and
    [api/handlers/middleware.go], together with the parts of Go's [strings]
    package, of gin's request context and of golang-jwt (v4) that these two
    files call.  Go values are modelled as follows:

    - a Go [string] and a [[]byte] are a [string] (a sequence of bytes);
    - a pointer result that may be [nil] is an [option];
    - the [error] interface is the inductive [error], a [nil] error is [None];
    - [time.Time] and [time.Duration] are integers (nanoseconds), the clock
      and the random source are explicit arguments;
    - a run-time panic is the outcome [Panicked]. *)

From Stdlib Require Import ZArith NArith Ascii String List Bool Lia.
From stdpp Require Import base option strings gmap.
Import ListNotations.

Local Open Scope string_scope.
Local Open Scope Z_scope.

(** ** Go's [strings] package *)

Module GoStrings.

(** [utf8.RuneSelf]: bytes below it are single-byte runes. *)
Definition RuneSelf : N := 128.

Fixpoint isASCII (s : string) : bool :=
  match s with
  | EmptyString => true
  | String c r => (N_of_ascii c <? RuneSelf)%N && isASCII r
  end.

(** What [Fields] and [ToLower] do on a string with a byte outside ASCII:
    they decode UTF-8 and consult the Unicode tables ([FieldsFunc(s,
    unicode.IsSpace)] and [Map(unicode.ToLower, s)]).  The tables are not
    modelled; the two functions are parameters. *)
Class Unicode : Type := mkUnicode {
  FieldsFunc_IsSpace : string -> list string;
  Map_ToLower : string -> string
}.

(** The table [asciiSpace]: tab, newline, vertical tab, form feed,
    carriage return and space. *)
Definition asciiSpace (c : ascii) : bool :=
  match N_of_ascii c with
  | 9%N | 10%N | 11%N | 12%N | 13%N | 32%N => true
  | _ => false
  end.

(** [flush cur]: the field accumulated so far, when there is one. *)
Definition flush (cur : string) : list string :=
  match cur with
  | EmptyString => []
  | _ => [cur]
  end.

(** The ASCII fast path of [Fields]: [cur] holds the bytes of the field
    being read ([s[fieldStart:i]] in Go). *)
Fixpoint fieldsFrom (cur : string) (s : string) : list string :=
  match s with
  | EmptyString => flush cur
  | String c r =>
      if asciiSpace c then flush cur ++ fieldsFrom EmptyString r
      else fieldsFrom (cur ++ String c EmptyString) r
  end.

(** One byte of the ASCII path of [ToLower]. *)
Definition lowerByte (c : ascii) : ascii :=
  let n := N_of_ascii c in
  if ((65 <=? n) && (n <=? 90))%N then ascii_of_N (n + 32) else c.

Fixpoint lowerASCII (s : string) : string :=
  match s with
  | EmptyString => EmptyString
  | String c r => String (lowerByte c) (lowerASCII r)
  end.

Section WithUnicode.
Context {U : Unicode}.

(** [strings.Fields(s)]. *)
Definition Fields (s : string) : list string :=
  if isASCII s then fieldsFrom EmptyString s else FieldsFunc_IsSpace s.

(** [strings.ToLower(s)]. *)
Definition ToLower (s : string) : string :=
  if isASCII s then lowerASCII s else Map_ToLower s.
End WithUnicode.

(** [strings.Split(s, sep)] for a one-byte separator: every occurrence
    cuts, empty pieces are kept, the result is never empty. *)
Fixpoint splitFrom (sep : ascii) (cur : string) (s : string) : list string :=
  match s with
  | EmptyString => [cur]
  | String c r =>
      if Ascii.eqb c sep then cur :: splitFrom sep EmptyString r
      else splitFrom sep (cur ++ String c EmptyString) r
  end.

Definition Split (s : string) (sep : ascii) : list string :=
  splitFrom sep EmptyString s.

(** [strings.Join(elems, sep)]. *)
Fixpoint Join (elems : list string) (sep : string) : string :=
  match elems with
  | [] => EmptyString
  | [e] => e
  | e :: rest => e ++ sep ++ Join rest sep
  end.

(** [strings.HasPrefix(s, prefix)]. *)
Fixpoint HasPrefix (s prefix : string) : bool :=
  match prefix, s with
  | EmptyString, _ => true
  | String p pr, String c r => Ascii.eqb c p && HasPrefix r pr
  | String _ _, EmptyString => false
  end.

(** The byte [c] does not occur in [s]. *)
Fixpoint free (c : ascii) (s : string) : bool :=
  match s with
  | EmptyString => true
  | String a r => negb (Ascii.eqb a c) && free c r
  end.

End GoStrings.

(** ** Go's [unicode/utf8] and what [encoding/json] does to a string *)

Module utf8.

(** The byte [c] lies in [lo..hi]. *)
Definition between (lo hi : N) (c : ascii) : bool :=
  ((lo <=? N_of_ascii c) && (N_of_ascii c <=? hi))%N.

(** A continuation byte, [0x80..0xBF]. *)
Definition continuation (c : ascii) : bool := between 128 191 c.

(** The well-formed sequences of two, three and four bytes, as the table
    of accepted ranges of [DecodeRune] has them: no overlong form, no
    surrogate, nothing above U+10FFFF. *)
Definition seq2 (c0 c1 : ascii) : bool :=
  between 194 223 c0 && continuation c1.

Definition seq3 (c0 c1 c2 : ascii) : bool :=
  (between 224 224 c0 && between 160 191 c1
   || between 225 236 c0 && continuation c1
   || between 237 237 c0 && between 128 159 c1
   || between 238 239 c0 && continuation c1)
  && continuation c2.

Definition seq4 (c0 c1 c2 c3 : ascii) : bool :=
  (between 240 240 c0 && between 144 191 c1
   || between 241 243 c0 && continuation c1
   || between 244 244 c0 && between 128 143 c1)
  && continuation c2 && continuation c3.

(** [utf8.ValidString(s)]. *)
Fixpoint ValidString (s : string) : bool :=
  match s with
  | EmptyString => true
  | String c0 r0 =>
      if (N_of_ascii c0 <? 128)%N then ValidString r0
      else
        match r0 with
        | String c1 r1 =>
            if seq2 c0 c1 then ValidString r1
            else
              match r1 with
              | String c2 r2 =>
                  if seq3 c0 c1 c2 then ValidString r2
                  else
                    match r2 with
                    | String c3 r3 =>
                        if seq4 c0 c1 c2 c3 then ValidString r3 else false
                    | EmptyString => false
                    end
              | EmptyString => false
              end
        | EmptyString => false
        end
  end.

End utf8.

Module json.

(** U+FFFD, the replacement character, in UTF-8, before [s]. *)
Definition replacement (s : string) : string :=
  String "239" (String "191" (String "189" s)).

(** A string after [json.Marshal] and [json.Unmarshal]: the encoder
    writes a byte that starts no well-formed sequence as [\ufffd], which
    the decoder reads as U+FFFD, and goes on with the next byte; every
    well-formed sequence comes back as it was. *)
Fixpoint coerce (s : string) : string :=
  match s with
  | EmptyString => EmptyString
  | String c0 r0 =>
      if (N_of_ascii c0 <? 128)%N then String c0 (coerce r0)
      else
        match r0 with
        | String c1 r1 =>
            if utf8.seq2 c0 c1 then String c0 (String c1 (coerce r1))
            else
              match r1 with
              | String c2 r2 =>
                  if utf8.seq3 c0 c1 c2
                  then String c0 (String c1 (String c2 (coerce r2)))
                  else
                    match r2 with
                    | String c3 r3 =>
                        if utf8.seq4 c0 c1 c2 c3
                        then String c0 (String c1 (String c2 (String c3 (coerce r3))))
                        else replacement (coerce r0)
                    | EmptyString => replacement (coerce r0)
                    end
              | EmptyString => replacement (coerce r0)
              end
        | EmptyString => replacement (coerce r0)
        end
  end.

End json.

(** ** Errors *)

Set Warnings "-register-all".

(** The values of Go's [error] interface that this program can build.
    [ValidationError] is golang-jwt's [*ValidationError]: the wrapped error
    [Inner] and the bit field [Errors]. *)
Inductive error : Type :=
| errorString (text : string)          (* errors.New, fmt.Errorf *)
| ErrTokenInvalid                      (* token.ErrTokenInvalid *)
| ErrTokenExpired                      (* token.ErrTokenExpired *)
| ErrInvalidUsername                   (* NewPayload: empty identity *)
| ErrIdGeneration                      (* NewPayload: uuid.NewRandom failed *)
| ErrInvalidKey                        (* jwt.ErrInvalidKey *)
| ErrInvalidKeyType                    (* jwt.ErrInvalidKeyType *)
| ErrHashUnavailable                   (* jwt.ErrHashUnavailable *)
| ErrSignatureInvalid                  (* jwt.ErrSignatureInvalid *)
| CorruptInputError                    (* base64.CorruptInputError *)
| JSONError                            (* an error of encoding/json *)
| sql_ErrNoRows                        (* sql.ErrNoRows *)
| sql_ErrConnDone                      (* sql.ErrConnDone *)
| sql_ErrTxDone                        (* sql.ErrTxDone *)
| ValidationError (Inner : option error) (Errors : N).

Fixpoint error_eqb (a b : error) : bool :=
  match a, b with
  | errorString s, errorString t => String.eqb s t
  | ErrTokenInvalid, ErrTokenInvalid
  | ErrTokenExpired, ErrTokenExpired
  | ErrInvalidUsername, ErrInvalidUsername
  | ErrIdGeneration, ErrIdGeneration
  | ErrInvalidKey, ErrInvalidKey
  | ErrInvalidKeyType, ErrInvalidKeyType
  | ErrHashUnavailable, ErrHashUnavailable
  | ErrSignatureInvalid, ErrSignatureInvalid
  | CorruptInputError, CorruptInputError
  | JSONError, JSONError
  | sql_ErrNoRows, sql_ErrNoRows
  | sql_ErrConnDone, sql_ErrConnDone
  | sql_ErrTxDone, sql_ErrTxDone => true
  | ValidationError i f, ValidationError j g =>
      match i, j with
      | Some x, Some y => error_eqb x y
      | None, None => true
      | _, _ => false
      end && N.eqb f g
  | _, _ => false
  end.

(** [errors.Is(err, target)]: [err] or an error it wraps (through
    [Unwrap], which [*ValidationError] defines as its [Inner]) equals
    [target]. *)
Fixpoint errors_Is (err target : error) : bool :=
  error_eqb err target ||
  match err with
  | ValidationError (Some inner) _ => errors_Is inner target
  | _ => false
  end.

(** ** Payload *)

(** Modelled from the spec: the [Payload] struct, whose declaration
    ([token/payload.go]) is not among the sources: a token id, the identity,
    the time of issue and the time of expiry ([ExpireAt] is the field the
    middleware reads). *)
Record Payload : Type := mkPayload {
  ID : string;
  Username : string;
  IssuedAt : Z;
  ExpireAt : Z
}.

(** The zero value [Payload{}]. *)
Definition Payload_zero : Payload := mkPayload "" "" 0 0.

(** A payload after [json.Marshal] and [json.Unmarshal]: the user name as
    JSON reads it back; the id (the text of a UUID) and the two instants
    come back as they were. *)
Definition jsonPayload (p : Payload) : Payload :=
  mkPayload (ID p) (json.coerce (Username p)) (IssuedAt p) (ExpireAt p).

(** Modelled from the spec: [NewPayload(identity, duration)], absent from the
    sources: "generates a fresh unique id, sets issuedAt = now, expiresAt =
    now + duration.  Fails with InvalidIdentity if identity is empty, and
    with IdGenerationError if random-id generation fails."  [now] is the
    clock, [rnd] the result of the random-id generator. *)
Definition NewPayload (now : Z) (rnd : option string)
    (username : string) (duration : Z) : option Payload * option error :=
  if String.eqb username "" then (None, Some ErrInvalidUsername)
  else
    match rnd with
    | None => (None, Some ErrIdGeneration)
    | Some tokenID =>
        (Some (mkPayload tokenID username now (now + duration)), None)
    end.

(** Modelled from the spec: [Payload.Valid()], absent from the sources:
    "returns TokenExpired if now > expiresAt; otherwise ok". *)
Definition Valid (now : Z) (payload : Payload) : option error :=
  if ExpireAt payload <? now then Some ErrTokenExpired else None.

(** ** The Maker interface *)

(** [token.Maker] as its implementation and its callers use it.  The clock
    and the random source that the methods read are arguments. *)
Record Maker : Type := mkMaker {
  CreateToken : Z -> option string -> string -> string * option Payload * option error;
  CreateRefreshToken : string -> string * option Payload * option error;
  VerifyToken : Z -> string -> option Payload * option error
}.

(** ** golang-jwt (v4): signing methods, tokens and the parser *)

Module jwt.

Inductive Hash : Type := SHA256 | SHA384 | SHA512.

(** The registered signing methods. *)
Inductive SigningMethod : Type :=
| SigningMethodHMAC (h : Hash)
| SigningMethodRSA (h : Hash)
| SigningMethodRSAPSS (h : Hash)
| SigningMethodECDSA (h : Hash)
| SigningMethodEd25519
| signingMethodNone.

Definition SigningMethodHS512 : SigningMethod := SigningMethodHMAC SHA512.

Definition Alg (m : SigningMethod) : string :=
  match m with
  | SigningMethodHMAC SHA256 => "HS256"
  | SigningMethodHMAC SHA384 => "HS384"
  | SigningMethodHMAC SHA512 => "HS512"
  | SigningMethodRSA SHA256 => "RS256"
  | SigningMethodRSA SHA384 => "RS384"
  | SigningMethodRSA SHA512 => "RS512"
  | SigningMethodRSAPSS SHA256 => "PS256"
  | SigningMethodRSAPSS SHA384 => "PS384"
  | SigningMethodRSAPSS SHA512 => "PS512"
  | SigningMethodECDSA SHA256 => "ES256"
  | SigningMethodECDSA SHA384 => "ES384"
  | SigningMethodECDSA SHA512 => "ES512"
  | SigningMethodEd25519 => "EdDSA"
  | signingMethodNone => "none"
  end.

Definition signingMethods : list SigningMethod :=
  [ SigningMethodHMAC SHA256; SigningMethodHMAC SHA384; SigningMethodHMAC SHA512;
    SigningMethodRSA SHA256; SigningMethodRSA SHA384; SigningMethodRSA SHA512;
    SigningMethodRSAPSS SHA256; SigningMethodRSAPSS SHA384; SigningMethodRSAPSS SHA512;
    SigningMethodECDSA SHA256; SigningMethodECDSA SHA384; SigningMethodECDSA SHA512;
    SigningMethodEd25519; signingMethodNone ].

(** [GetSigningMethod(alg)]: the method registered under [alg], [nil]
    when there is none. *)
Definition GetSigningMethod (alg : string) : option SigningMethod :=
  List.find (fun m => String.eqb (Alg m) alg) signingMethods.

(** The HMAC family. *)
Definition isHMAC (m : SigningMethod) : bool :=
  match m with
  | SigningMethodHMAC _ => true
  | _ => false
  end.

(** The dynamic type and the content of a key ([interface{}]). *)
Inductive Key : Type :=
| KeyBytes (b : string)              (* []byte *)
| KeyRSAPublic (k : string)          (* *rsa.PublicKey *)
| KeyECDSAPublic (k : string)        (* *ecdsa.PublicKey *)
| KeyEd25519Public (k : string)      (* ed25519.PublicKey *)
| KeyUnsafeAllowNone                 (* UnsafeAllowNoneSignatureType *)
| KeyNil.                            (* the nil interface *)

(** The bits of [ValidationError.Errors]. *)
Definition ValidationErrorMalformed : N := N.shiftl 1 0.
Definition ValidationErrorUnverifiable : N := N.shiftl 1 1.
Definition ValidationErrorSignatureInvalid : N := N.shiftl 1 2.
Definition ValidationErrorClaimsInvalid : N := N.shiftl 1 9.

(** [NewValidationError(text, flags)]; the text is not modelled. *)
Definition NewValidationError (errorFlags : N) : error :=
  ValidationError None errorFlags.

(** ['none' signature type is not allowed]. *)
Definition NoneSignatureTypeDisallowedError : error :=
  NewValidationError ValidationErrorSignatureInvalid.

(** The JOSE header: the entries the library writes and reads.  [alg] is
    [Some a] when the entry is present and a string. *)
Record Header : Type := mkHeader {
  typ : option string;
  alg : option string
}.

Record Token : Type := mkToken {
  Raw : string;
  Method : option SigningMethod;
  TokenHeader : Header;
  Claims : Payload;
  Signature : string;
  TokenValid : bool
}.

(** What the library takes from [encoding/base64], [encoding/json] and
    [crypto]: the base64url coding of a segment, the JSON coding of the
    header and of the claims, the HMAC of a message under a key, and the
    verification of an asymmetric signature. *)
Class Encoding : Type := mkEncoding {
  EncodeSegment : string -> string;
  DecodeSegment : string -> option string;
  marshalHeader : Header -> option string;
  unmarshalHeader : string -> option Header;
  marshalClaims : Payload -> option string;
  unmarshalClaims : string -> option Payload;
  hmac : Hash -> string -> string -> string;
  publicVerify : SigningMethod -> string -> string -> string -> bool
}.

(** What the proofs of a round trip use of these codings: a segment
    decodes to what was encoded and holds no dot; the header that
    [NewWithClaims] writes for a method decodes to itself; the claims
    decode to the payload as JSON reads it back ([jsonPayload]: a user name
    that is not valid UTF-8 does not come back as it was).  Nothing is
    asked of [hmac] and [publicVerify].  A time is an instant: the
    monotonic clock reading and the location that [time.Time] carries
    beside it, and that JSON drops, are not modelled. *)
Class EncodingLaws (E : Encoding) : Prop := mkEncodingLaws {
  DecodeSegment_EncodeSegment :
    forall b, DecodeSegment (EncodeSegment b) = Some b;
  EncodeSegment_no_dot :
    forall b, GoStrings.free "." (EncodeSegment b) = true;
  unmarshalHeader_marshalHeader :
    forall m, exists s,
      marshalHeader (mkHeader (Some "JWT") (Some (Alg m))) = Some s
      /\ unmarshalHeader s = Some (mkHeader (Some "JWT") (Some (Alg m)));
  unmarshalClaims_marshalClaims :
    forall p, exists s,
      marshalClaims p = Some s /\ unmarshalClaims s = Some (jsonPayload p)
}.

Section Parser.
Context {U : GoStrings.Unicode} {E : Encoding}.

(** [Method.Verify(signingString, signature, key)]. *)
Definition Verify (m : SigningMethod) (signingString signature : string)
    (key : Key) : option error :=
  match m with
  | SigningMethodHMAC h =>
      match key with
      | KeyBytes keyBytes =>
          match DecodeSegment signature with
          | None => Some CorruptInputError
          | Some sig =>
              if String.eqb sig (hmac h keyBytes signingString) then None
              else Some ErrSignatureInvalid
          end
      | _ => Some ErrInvalidKeyType
      end
  | SigningMethodRSA _ =>
      match DecodeSegment signature with
      | None => Some CorruptInputError
      | Some sig =>
          match key with
          | KeyRSAPublic k =>
              if publicVerify m k signingString sig then None
              else Some ErrSignatureInvalid
          | _ => Some ErrInvalidKeyType
          end
      end
  | SigningMethodRSAPSS _ =>
      match DecodeSegment signature with
      | None => Some CorruptInputError
      | Some sig =>
          match key with
          | KeyRSAPublic k =>
              if publicVerify m k signingString sig then None
              else Some ErrSignatureInvalid
          | _ => Some ErrInvalidKey
          end
      end
  | SigningMethodECDSA _ =>
      match DecodeSegment signature with
      | None => Some CorruptInputError
      | Some sig =>
          match key with
          | KeyECDSAPublic k =>
              if publicVerify m k signingString sig then None
              else Some ErrSignatureInvalid
          | _ => Some ErrInvalidKeyType
          end
      end
  | SigningMethodEd25519 =>
      match key with
      | KeyEd25519Public k =>
          match DecodeSegment signature with
          | None => Some CorruptInputError
          | Some sig =>
              if publicVerify m k signingString sig then None
              else Some ErrSignatureInvalid
          end
      | _ => Some ErrInvalidKeyType
      end
  | signingMethodNone =>
      match key with
      | KeyUnsafeAllowNone =>
          if String.eqb signature "" then None
          else Some (NewValidationError ValidationErrorSignatureInvalid)
      | _ => Some NoneSignatureTypeDisallowedError
      end
  end.

(** [Method.Sign(signingString, key)] of the HMAC methods, the only
    ones this program signs with. *)
Definition Sign (m : SigningMethod) (signingString : string) (key : Key)
    : string * option error :=
  match m, key with
  | SigningMethodHMAC h, KeyBytes keyBytes =>
      (EncodeSegment (hmac h keyBytes signingString), None)
  | SigningMethodHMAC _, _ => ("", Some ErrInvalidKeyType)
  | _, _ => ("", Some ErrInvalidKey)
  end.

(** [NewWithClaims(method, claims)]. *)
Definition NewWithClaims (method : SigningMethod) (claims : Payload) : Token :=
  mkToken "" (Some method) (mkHeader (Some "JWT") (Some (Alg method)))
          claims "" false.

(** [Token.SigningString()]. *)
Definition SigningString (t : Token) : string * option error :=
  match marshalHeader (TokenHeader t) with
  | None => ("", Some JSONError)
  | Some jsonHeader =>
      let header := EncodeSegment jsonHeader in
      match marshalClaims (Claims t) with
      | None => ("", Some JSONError)
      | Some jsonClaims =>
          let claim := EncodeSegment jsonClaims in
          (GoStrings.Join [header; claim] ".", None)
      end
  end.

(** [Token.SignedString(key)]. *)
Definition SignedString (t : Token) (key : Key) : string * option error :=
  match SigningString t with
  | (_, Some err) => ("", Some err)
  | (sstr, None) =>
      match Method t with
      | None => ("", Some ErrInvalidKey)
      | Some m =>
          match Sign m sstr key with
          | (_, Some err) => ("", Some err)
          | (sig, None) => (GoStrings.Join [sstr; sig] ".", None)
          end
      end
  end.

(** [Parser.ParseUnverified(tokenString, claims)]: the token read so
    far, the segments, and the error. *)
Definition ParseUnverified (tokenString : string)
    : option Token * list string * option error :=
  let parts := GoStrings.Split tokenString "." in
  match parts with
  | [part0; part1; part2] =>
      let token := mkToken tokenString None (mkHeader None None)
                           Payload_zero "" false in
      match DecodeSegment part0 with
      | None =>
          if GoStrings.HasPrefix (GoStrings.ToLower tokenString) "bearer "
          then (Some token, parts,
                Some (NewValidationError ValidationErrorMalformed))
          else (Some token, parts,
                Some (ValidationError (Some CorruptInputError)
                                      ValidationErrorMalformed))
      | Some headerBytes =>
          match unmarshalHeader headerBytes with
          | None =>
              (Some token, parts,
               Some (ValidationError (Some JSONError) ValidationErrorMalformed))
          | Some header =>
              let token := mkToken tokenString None header
                                   Payload_zero "" false in
              match DecodeSegment part1 with
              | None =>
                  (Some token, parts,
                   Some (ValidationError (Some CorruptInputError)
                                         ValidationErrorMalformed))
              | Some claimBytes =>
                  match unmarshalClaims claimBytes with
                  | None =>
                      (Some token, parts,
                       Some (ValidationError (Some JSONError)
                                             ValidationErrorMalformed))
                  | Some claims =>
                      let token := mkToken tokenString None header
                                           claims "" false in
                      match alg header with
                      | Some method =>
                          match GetSigningMethod method with
                          | None =>
                              (Some token, parts,
                               Some (NewValidationError
                                       ValidationErrorUnverifiable))
                          | Some m =>
                              (Some (mkToken tokenString (Some m) header
                                             claims "" false),
                               parts, None)
                          end
                      | None =>
                          (Some token, parts,
                           Some (NewValidationError
                                   ValidationErrorUnverifiable))
                      end
                  end
              end
          end
      end
  | _ => (None, parts, Some (NewValidationError ValidationErrorMalformed))
  end.

(** [ParseWithClaims(tokenString, claims, keyFunc)] of the default
    parser (no [ValidMethods], claims validated).  [claimsValid] is the
    [Valid] method of the claims.  The claims are validated before the
    signature, and a failed signature check replaces the wrapped error;
    the later releases of v4 that check the signature first and return at
    once wrap the same error under the same flag. *)
Definition ParseWithClaims (claimsValid : Payload -> option error)
    (tokenString : string)
    (keyFunc : Token -> Key * option error)
    : option Token * option error :=
  match ParseUnverified tokenString with
  | (token, _, Some err) => (token, Some err)
  | (None, _, None) =>
      (* not reached: without an error there is a token *)
      (None, Some (NewValidationError ValidationErrorMalformed))
  | (Some token, parts, None) =>
      match keyFunc token with
      | (_, Some err) =>
          match err with
          | ValidationError _ _ => (Some token, Some err)
          | _ => (Some token,
                  Some (ValidationError (Some err) ValidationErrorUnverifiable))
          end
      | (key, None) =>
          let vErr :=
            match claimsValid (Claims token) with
            | None => (None, 0%N)
            | Some (ValidationError i f) => (i, f)
            | Some err => (Some err, ValidationErrorClaimsInvalid)
            end in
          let signature := nth 2 parts "" in
          let token := mkToken (Raw token) (Method token) (TokenHeader token)
                               (Claims token) signature false in
          let vErr :=
            match Method token with
            | None =>
                (* not reached: a token parsed without error has a method *)
                (Some ErrInvalidKey,
                 N.lor (snd vErr) ValidationErrorSignatureInvalid)
            | Some m =>
                match Verify m (GoStrings.Join (firstn 2 parts) ".")
                             signature key with
                | Some err =>
                    (Some err, N.lor (snd vErr) ValidationErrorSignatureInvalid)
                | None => vErr
                end
            end in
          if N.eqb (snd vErr) 0 then
            (Some (mkToken (Raw token) (Method token) (TokenHeader token)
                           (Claims token) signature true), None)
          else (Some token, Some (ValidationError (fst vErr) (snd vErr)))
      end
  end.
End Parser.

End jwt.

(** ** The token package: [JWTMaker] *)

Definition minSecretKeyLen : nat := 32.

Record JWTMaker : Type := mkJWTMaker { secretKey : string }.

Section JWT.
Context {U : GoStrings.Unicode} {E : jwt.Encoding}.

(** The constant [AccessTokenExpiration], declared outside the sources:
    the life time [CreateToken] gives every token. *)
Variable AccessTokenExpiration : Z.

(** The method [CreateToken(username)] of [JWTMaker]. *)
Definition JWTMaker_CreateToken (jwtMaker : JWTMaker) (now : Z)
    (rnd : option string) (username : string)
    : string * option Payload * option error :=
  match NewPayload now rnd username AccessTokenExpiration with
  | (payload, Some err) => ("", payload, Some err)
  | (None, None) => ("", None, Some ErrInvalidKey) (* not reached *)
  | (Some payload, None) =>
      let jwtToken := jwt.NewWithClaims jwt.SigningMethodHS512 payload in
      let '(token, err) :=
        jwt.SignedString jwtToken (jwt.KeyBytes (secretKey jwtMaker)) in
      (token, Some payload, err)
  end.

(** The method [CreateRefreshToken(username)] of [JWTMaker]. *)
Definition JWTMaker_CreateRefreshToken (jwtMaker : JWTMaker)
    (username : string) : string * option Payload * option error :=
  ("", None, None).

(** The [keyFunc] closure of [VerifyToken]. *)
Definition keyFunc (jwtMaker : JWTMaker) (token : jwt.Token)
    : jwt.Key * option error :=
  match jwt.Method token with
  | Some (jwt.SigningMethodECDSA _) => (jwt.KeyNil, Some ErrTokenInvalid)
  | _ => (jwt.KeyBytes (secretKey jwtMaker), None)
  end.

(** The method [VerifyToken(token)] of [JWTMaker], at the time [now].
    The claims of a parsed token are the [Payload] handed to the parser,
    so the type assertion on [jwtToken.Claims] holds. *)
Definition JWTMaker_VerifyToken (jwtMaker : JWTMaker) (now : Z)
    (token : string) : option Payload * option error :=
  match jwt.ParseWithClaims (Valid now) token (keyFunc jwtMaker) with
  | (_, Some err) =>
      let ok := match err with ValidationError _ _ => true | _ => false end in
      if ok && errors_Is err ErrTokenExpired then (None, Some ErrTokenExpired)
      else (None, Some ErrTokenInvalid)
  | (None, None) => (None, Some ErrTokenInvalid) (* not reached *)
  | (Some jwtToken, None) => (Some (jwt.Claims jwtToken), None)
  end.

(** A [JWTMaker] as a [Maker]. *)
Definition JWTMaker_Maker (jwtMaker : JWTMaker) : Maker :=
  mkMaker (JWTMaker_CreateToken jwtMaker)
          (JWTMaker_CreateRefreshToken jwtMaker)
          (JWTMaker_VerifyToken jwtMaker).

(** [NewJWTMaker(secretKey)]. *)
Definition NewJWTMaker (secretKey : string) : option Maker * option error :=
  if (String.length secretKey <? minSecretKeyLen)%nat then
    (None, Some (errorString "secretKet len is less than the min value 32"))
  else (Some (JWTMaker_Maker (mkJWTMaker secretKey)), None).
End JWT.

(** ** gin: the request context *)

Module gin.

Definition upperByte (c : ascii) : ascii :=
  let n := N_of_ascii c in
  if ((97 <=? n) && (n <=? 122))%N then ascii_of_N (n - 32) else c.

(** [textproto.CanonicalMIMEHeaderKey] on a key of letters, digits and
    hyphens: upper case at the start and after a hyphen, lower case
    elsewhere. *)
Fixpoint canonicalFrom (upper : bool) (s : string) : string :=
  match s with
  | EmptyString => EmptyString
  | String c r =>
      let c' := if upper then upperByte c else GoStrings.lowerByte c in
      String c' (canonicalFrom (Ascii.eqb c' "-") r)
  end.

Definition CanonicalMIMEHeaderKey (s : string) : string := canonicalFrom true s.

(** The part of [gin.Context] the handlers touch: the request headers
    (under their canonical keys), the keys set on the context, whether the
    chain was aborted, and the response written (status and JSON body; a
    body is the error it reports, or [None] for an empty object). *)
Record Context : Type := mkContext {
  Header : gmap string (list string);
  Keys : gmap string Payload;
  IsAborted : bool;
  Written : option (Z * option error)
}.

(** [ctx.GetHeader(key)]: the first value under [key], the empty string
    when there is none. *)
Definition GetHeader (ctx : Context) (key : string) : string :=
  match Header ctx !! CanonicalMIMEHeaderKey key with
  | Some (v :: _) => v
  | _ => ""
  end.

(** [ctx.AbortWithStatusJSON(code, obj)]. *)
Definition AbortWithStatusJSON (ctx : Context) (code : Z) (obj : option error)
    : Context :=
  mkContext (Header ctx) (Keys ctx) true (Some (code, obj)).

(** [ctx.JSON(code, obj)]. *)
Definition JSON (ctx : Context) (code : Z) (obj : option error) : Context :=
  mkContext (Header ctx) (Keys ctx) (IsAborted ctx) (Some (code, obj)).

(** [ctx.Set(key, value)]. *)
Definition Set_ (ctx : Context) (key : string) (value : Payload) : Context :=
  mkContext (Header ctx) (<[key := value]> (Keys ctx)) (IsAborted ctx)
            (Written ctx).

(** A request carrying the header values [hs], nothing set or written. *)
Definition request (hs : gmap string (list string)) : Context :=
  mkContext hs ∅ false None.

End gin.

(** ** The handlers package: [authMiddleware] *)

Definition StatusOK : Z := 200.
Definition StatusBadRequest : Z := 400.
Definition StatusUnauthorized : Z := 401.
Definition StatusNotFound : Z := 404.
Definition StatusInternalServerError : Z := 500.

Definition authorizationHeaderKey : string := "authorization".
Definition authorizationTypeBearer : string := "bearer".
Definition authorizationPayloadKey : string := "payload".

(** Modelled from the spec: [errorResponse], absent from the sources: the
    JSON body "carrying a JSON error message derived from the error's
    text"; a body is represented by the error it reports. *)
Definition errorResponse (err : error) : option error := Some err.

Section Handlers.

(** The state of the collaborators (the store) that the handlers after the
    middleware act on. *)
Context {U : GoStrings.Unicode} {W : Type}.

(** How a handler ends: it returns, leaving a context and a state, or the
    goroutine panics. *)
Inductive Outcome : Type :=
| Returned (ctx : gin.Context) (w : W)
| Panicked.

(** [authMiddleware(tokenMaker)], run at the time [now]; [next] is the
    rest of the handler chain, which [ctx.Next()] runs. *)
Definition authMiddleware (tokenMaker : Maker) (now : Z)
    (next : gin.Context -> W -> Outcome) (ctx : gin.Context) (w : W)
    : Outcome :=
  (* Get Header *)
  let authorizationHeader := gin.GetHeader ctx authorizationHeaderKey in
  if (String.length authorizationHeader =? 0)%nat then
    let err := errorString "authorization header not provided" in
    Returned (gin.AbortWithStatusJSON ctx StatusUnauthorized (errorResponse err)) w
  else
    (* Parse authorization value *)
    let fields := GoStrings.Fields authorizationHeader in
    if (List.length fields <? 2)%nat then
      let err := errorString "invalid authorization format" in
      Returned (gin.AbortWithStatusJSON ctx StatusUnauthorized (errorResponse err)) w
    else
      match fields with
      | fields0 :: fields1 :: _ =>
          (* Get & check Auth type *)
          let authorizationType := GoStrings.ToLower fields0 in
          if negb (String.eqb authorizationType authorizationTypeBearer) then
            let err := errorString
                         ("unsupported authorization type " ++ authorizationType) in
            Returned (gin.AbortWithStatusJSON ctx StatusUnauthorized
                                              (errorResponse err)) w
          else
            (* Verify token *)
            let accessToken := fields1 in
            let '(payload, err) := VerifyToken tokenMaker now accessToken in
            match payload with
            | None => Panicked            (* payload.ExpireAt on a nil pointer *)
            | Some payload =>
                match err with
                | Some err =>
                    Returned (gin.AbortWithStatusJSON ctx StatusUnauthorized
                                                      (errorResponse err)) w
                | None =>
                    next (gin.Set_ ctx authorizationPayloadKey payload) w
                end
            end
      | _ => Panicked                     (* index out of range *)
      end.

End Handlers.

Arguments Outcome : clear implicits.
Arguments Returned {W} ctx w.
Arguments Panicked {W}.

(** The last step of [authMiddleware], on the access token it took from the
    header: what the function does from [VerifyToken] on. *)
Definition tokenVerify {W : Type} (tokenMaker : Maker) (now : Z)
    (next : gin.Context -> W -> Outcome W) (ctx : gin.Context) (w : W)
    (accessToken : string) : Outcome W :=
  match VerifyToken tokenMaker now accessToken with
  | (None, _) => Panicked
  | (Some payload, Some err) =>
      Returned (gin.AbortWithStatusJSON ctx StatusUnauthorized (errorResponse err)) w
  | (Some payload, None) =>
      next (gin.Set_ ctx authorizationPayloadKey payload) w
  end.

(** A rejection by the middleware: the chain is aborted with status 401 and
    a body reporting [err]; nothing is set on the context. *)
Definition rejected {W : Type} (ctx : gin.Context) (w : W) (err : error)
    : Outcome W :=
  Returned (gin.AbortWithStatusJSON ctx StatusUnauthorized (Some err)) w.

(** ** Owner-scoped operations *)

(** [db.Account], as the tests build it. *)
Record Account : Type := mkAccount {
  AccountID : Z;
  Owner : string;
  Balance : Z;
  Currency : string
}.

Definition Account_zero : Account := mkAccount 0 "" 0 "".

(** The calls of [db.Store] that the deletion of an account makes, on a
    store in the state [W]. *)
Class Store (W : Type) : Type := mkStore {
  GetAccount : W -> Z -> Account * option error;
  DeleteAccount : W -> Z -> W * option error
}.

(** Modelled from the spec: the handler of [DELETE /api/accounts/:id],
    absent from the sources, after section 4.4 ("Load the resource by its
    identifier.  If not found, signal NotFound - independent of auth.
    Compare resource's owner field to the Payload's identity retrieved from
    context.  Mismatch -> Unauthorized.  Match -> proceed with the
    operation.") and the responses [TestDeleteAccount] expects: 400 for an
    identifier below 1, 404 when the store has no row, 500 for another
    failure of the store, 401 for another owner, 200 after the deletion.
    The bodies of the 400 and 401 responses are left empty: their texts are
    not in the sources. *)
Definition deleteAccount {W : Type} {S : Store W} (id : Z)
    (ctx : gin.Context) (w : W) : Outcome W :=
  if id <? 1 then Returned (gin.JSON ctx StatusBadRequest None) w
  else
    match GetAccount w id with
    | (_, Some err) =>
        if error_eqb err sql_ErrNoRows
        then Returned (gin.JSON ctx StatusNotFound (errorResponse err)) w
        else Returned (gin.JSON ctx StatusInternalServerError (errorResponse err)) w
    | (account, None) =>
        match gin.Keys ctx !! authorizationPayloadKey with
        | None => Panicked
        | Some payload =>
            if negb (String.eqb (Owner account) (Username payload))
            then Returned (gin.JSON ctx StatusUnauthorized None) w
            else
              match DeleteAccount w id with
              | (w', Some err) =>
                  Returned (gin.JSON ctx StatusInternalServerError
                                     (errorResponse err)) w'
              | (w', None) => Returned (gin.JSON ctx StatusOK None) w'
              end
        end
    end.

(** ** The claims of the specification that the code does not satisfy,
    stated as the specification words them *)

(** "if the lower-cased first field does not equal "bearer" it is rejected
    with "unsupported authorization type"". *)
Definition scheme_rejected_with_fixed_text {U : GoStrings.Unicode} : Prop :=
  forall (tokenMaker : Maker) (now : Z) (next : gin.Context -> unit -> Outcome unit)
         (ctx : gin.Context) (fields0 fields1 : string) (rest : list string),
    GoStrings.Fields (gin.GetHeader ctx authorizationHeaderKey)
      = fields0 :: fields1 :: rest ->
    GoStrings.ToLower fields0 <> authorizationTypeBearer ->
    authMiddleware tokenMaker now next ctx tt
      = rejected ctx tt (errorString "unsupported authorization type").

(** The causes of a failed verification that the specification names. *)
Inductive Cause : Type :=
| TokenMalformed
| TokenSignatureInvalid
| TokenExpired
| TokenInvalid.

(** The cause of a failure, read off the error of the parser: a malformed
    token, else a failed signature check, else an expired payload, else
    any other error. *)
Definition causeOf (err : error) : Cause :=
  match err with
  | ValidationError inner flags =>
      if negb (N.land flags jwt.ValidationErrorMalformed =? 0)%N
      then TokenMalformed
      else if negb (N.land flags jwt.ValidationErrorSignatureInvalid =? 0)%N
      then TokenSignatureInvalid
      else if errors_Is err ErrTokenExpired then TokenExpired
      else TokenInvalid
  | _ => TokenInvalid
  end.

(** "VerifyToken distinguishes failure causes in its result": two tokens
    that fail for different causes are answered with different errors. *)
Definition causes_distinguished {U : GoStrings.Unicode} {E : jwt.Encoding} : Prop :=
  forall (jwtMaker : JWTMaker) (now : Z) (token1 token2 : string)
         (err1 err2 : error),
    snd (jwt.ParseWithClaims (Valid now) token1 (keyFunc jwtMaker)) = Some err1 ->
    snd (jwt.ParseWithClaims (Valid now) token2 (keyFunc jwtMaker)) = Some err2 ->
    causeOf err1 <> causeOf err2 ->
    snd (JWTMaker_VerifyToken jwtMaker now token1)
      <> snd (JWTMaker_VerifyToken jwtMaker now token2).

(** "For every identity u and every duration d > 0, CreateToken(u, d)
    succeeds and immediately calling VerifyToken on the produced token
    string returns a Payload whose identity equals u and on which Valid()
    succeeds": for every non-empty string as identity, the duration being
    that of the maker and the random source delivering an id. *)
Definition roundtrip_every_identity {U : GoStrings.Unicode} {E : jwt.Encoding}
    : Prop :=
  forall (d : Z) (secret : string) (maker : Maker) (now : Z)
         (tokenID u : string),
    NewJWTMaker d secret = (Some maker, None) ->
    u <> "" ->
    0 < d ->
    let '(token, _, err) := CreateToken maker now (Some tokenID) u in
    err = None
    /\ exists payload,
         VerifyToken maker now token = (Some payload, None)
         /\ Username payload = u
         /\ Valid now payload = None.

(** The algorithm that the header of a token claims: the [alg] entry of
    its first segment. *)
Definition claimedAlg {E : jwt.Encoding} (token : string) : option string :=
  match GoStrings.Split token "." with
  | [part0; _; _] =>
      match jwt.DecodeSegment part0 with
      | Some headerBytes =>
          match jwt.unmarshalHeader headerBytes with
          | Some header => jwt.alg header
          | None => None
          end
      | None => None
      end
  | _ => None
  end.

(** What [VerifyToken] answers for a token that [ParseUnverified] accepted
    with the method [m], the claims [claims] and the segments [parts]. *)
Definition verdict {E : jwt.Encoding} (jwtMaker : JWTMaker) (now : Z)
    (m : jwt.SigningMethod) (claims : Payload) (parts : list string)
    : option Payload * option error :=
  match m with
  | jwt.SigningMethodECDSA _ => (None, Some ErrTokenInvalid)
  | _ =>
      match jwt.Verify m (GoStrings.Join (firstn 2 parts) ".") (nth 2 parts "")
                       (jwt.KeyBytes (secretKey jwtMaker)) with
      | Some _ => (None, Some ErrTokenInvalid)
      | None =>
          if ExpireAt claims <? now then (None, Some ErrTokenExpired)
          else (Some claims, None)
      end
  end.

(** [t] is [s] with some of its lower-case letters in upper case. *)
Fixpoint caseVariant (s t : string) : bool :=
  match s, t with
  | EmptyString, EmptyString => true
  | String a s', String b t' =>
      (Ascii.eqb b a || Ascii.eqb b (gin.upperByte a)) && caseVariant s' t'
  | _, _ => false
  end.

(** The names of the HMAC family. *)
Definition hmacAlg (a : string) : bool :=
  String.eqb a "HS256" || String.eqb a "HS384" || String.eqb a "HS512".

(** ** A concrete encoding, to run the model on *)

Module Sample.

Definition bitChar (b : bool) : ascii := if b then "1"%char else "0"%char.

Definition charBit (c : ascii) : option bool :=
  if Ascii.eqb c "0" then Some false
  else if Ascii.eqb c "1" then Some true
  else None.

(** A byte as its eight binary digits. *)
Definition encodeByte (c : ascii) : string :=
  let '(Ascii b0 b1 b2 b3 b4 b5 b6 b7) := c in
  String (bitChar b0) (String (bitChar b1) (String (bitChar b2)
  (String (bitChar b3) (String (bitChar b4) (String (bitChar b5)
  (String (bitChar b6) (String (bitChar b7) EmptyString))))))).

Fixpoint encodeBits (s : string) : string :=
  match s with
  | EmptyString => EmptyString
  | String c r => encodeByte c ++ encodeBits r
  end.

Fixpoint decodeBits (s : string) : option string :=
  match s with
  | EmptyString => Some EmptyString
  | String c0 (String c1 (String c2 (String c3 (String c4 (String c5
      (String c6 (String c7 r))))))) =>
      match charBit c0, charBit c1, charBit c2, charBit c3,
            charBit c4, charBit c5, charBit c6, charBit c7, decodeBits r with
      | Some b0, Some b1, Some b2, Some b3,
        Some b4, Some b5, Some b6, Some b7, Some r' =>
          Some (String (Ascii b0 b1 b2 b3 b4 b5 b6 b7) r')
      | _, _, _, _, _, _, _, _, _ => None
      end
  | _ => None
  end.

Fixpoint posDigits (p : positive) : string :=
  match p with
  | xH => EmptyString
  | xO q => String "0" (posDigits q)
  | xI q => String "1" (posDigits q)
  end.

Fixpoint digitsPos (s : string) : option positive :=
  match s with
  | EmptyString => Some xH
  | String c r =>
      match charBit c, digitsPos r with
      | Some false, Some q => Some (xO q)
      | Some true, Some q => Some (xI q)
      | _, _ => None
      end
  end.

Definition writeZ (z : Z) : string :=
  match z with
  | Z0 => "z"
  | Zpos p => String "p" (posDigits p)
  | Zneg p => String "n" (posDigits p)
  end.

Definition readZ (s : string) : option Z :=
  match s with
  | String c r =>
      if Ascii.eqb c "z" then
        match r with EmptyString => Some Z0 | _ => None end
      else if Ascii.eqb c "p" then Zpos <$> digitsPos r
      else if Ascii.eqb c "n" then Zneg <$> digitsPos r
      else None
  | EmptyString => None
  end.

Definition writeOption (o : option string) : string :=
  match o with
  | None => "-"
  | Some s => String "+" (encodeBits s)
  end.

Definition readOption (s : string) : option (option string) :=
  match s with
  | String c r =>
      if Ascii.eqb c "-" then
        match r with EmptyString => Some None | _ => None end
      else if Ascii.eqb c "+" then Some <$> decodeBits r
      else None
  | EmptyString => None
  end.

Definition writeHeader (h : jwt.Header) : option string :=
  Some (GoStrings.Join [writeOption (jwt.typ h); writeOption (jwt.alg h)] ",").

Definition readHeader (s : string) : option jwt.Header :=
  match GoStrings.Split s "," with
  | [t; a] =>
      match readOption t, readOption a with
      | Some t', Some a' => Some (jwt.mkHeader t' a')
      | _, _ => None
      end
  | _ => None
  end.

Definition writeClaims (p : Payload) : option string :=
  Some (GoStrings.Join [encodeBits (ID p); encodeBits (json.coerce (Username p));
                        writeZ (IssuedAt p); writeZ (ExpireAt p)] ",").

Definition readClaims (s : string) : option Payload :=
  match GoStrings.Split s "," with
  | [i; u; t0; t1] =>
      match decodeBits i, decodeBits u, readZ t0, readZ t1 with
      | Some i', Some u', Some t0', Some t1' => Some (mkPayload i' u' t0' t1')
      | _, _, _, _ => None
      end
  | _ => None
  end.

(** A keyed checksum of a message, a stand-in for HMAC with none of its
    strength: a polynomial over the bytes of the key and the message. *)
Fixpoint checksum (acc : N) (s : string) : N :=
  match s with
  | EmptyString => acc
  | String c r => checksum ((acc * 257 + N_of_ascii c + 1) mod 1000000007)%N r
  end.

Definition seed (h : jwt.Hash) : N :=
  match h with
  | jwt.SHA256 => 256
  | jwt.SHA384 => 384
  | jwt.SHA512 => 512
  end.

Definition tag (h : jwt.Hash) (key msg : string) : string :=
  writeZ (Z.of_N (checksum (checksum (seed h) key) msg)).

(** On a string outside ASCII the sample takes the byte-wise scans: the
    runs below use ASCII strings only. *)
#[export] Instance unicode : GoStrings.Unicode :=
  GoStrings.mkUnicode (GoStrings.fieldsFrom EmptyString) GoStrings.lowerASCII.

#[export] Instance encoding : jwt.Encoding :=
  jwt.mkEncoding encodeBits decodeBits writeHeader readHeader
                 writeClaims readClaims tag
                 (fun _ k msg sig => String.eqb sig (k ++ msg)).

(** A secret of 32 bytes and the maker built from it. *)
Definition secret : string := "0123456789abcdef0123456789abcdef".
Definition maker : Maker := JWTMaker_Maker 900 (mkJWTMaker secret).

(** A request whose authorization header is [v]. *)
Definition requestWith (v : string) : gin.Context :=
  gin.request {[ "Authorization" := [v] ]}.

(** The handler of the middleware's test route: [ctx.JSON(200, gin.H{})]. *)
Definition ok (ctx : gin.Context) (w : unit) : Outcome unit :=
  Returned (gin.JSON ctx StatusOK None) w.

(** The token the maker issues to "bob" at the time 1000; it lives until
    1900. *)
Definition issued : string :=
  fst (fst (CreateToken maker 1000 (Some "id1") "bob")).

(** A maker whose tokens are created with a negative duration, and the
    token it issues to "bob" at the time 1000. *)
Definition expiringMaker : Maker := JWTMaker_Maker (-60) (mkJWTMaker secret).

Definition expired : string :=
  fst (fst (CreateToken expiringMaker 1000 (Some "id2") "bob")).

(** A token for "bob" signed with another secret. *)
Definition otherSecret : string := "fedcba9876543210fedcba9876543210".

Definition foreign : string :=
  fst (fst (CreateToken (JWTMaker_Maker 900 (mkJWTMaker otherSecret))
                        1000 (Some "id3") "bob")).

(** A token written by hand: the header claims the algorithm [a], the
    payload names "bob", the signature is [signature]. *)
Definition forged (a : string) (signature : string) : string :=
  GoStrings.Join
    [ encodeBits (default "" (writeHeader (jwt.mkHeader (Some "JWT") (Some a))));
      encodeBits (default "" (writeClaims (mkPayload "id4" "bob" 1000 1900)));
      signature ] ".".

(** A store in memory: the accounts by identifier. *)
#[export] Instance store : Store (gmap Z Account) :=
  mkStore (gmap Z Account)
    (fun w id =>
       match w !! id with
       | Some account => (account, None)
       | None => (Account_zero, Some sql_ErrNoRows)
       end)
    (fun w id => (delete id w, None)).

(** The store with one account, of "bob". *)
Definition accounts : gmap Z Account :=
  {[ 7 := mkAccount 7 "bob" 100 "USD" ]}.

End Sample.

(** ** Further definitions: what a token is made of, and the test helper *)

(** The hash of an algorithm name of the HMAC family. *)
Definition hmacHash (a : string) : option jwt.Hash :=
  if String.eqb a "HS256" then Some jwt.SHA256
  else if String.eqb a "HS384" then Some jwt.SHA384
  else if String.eqb a "HS512" then Some jwt.SHA512
  else None.

(** The signing input of a token: its first two segments, joined by a
    dot. *)
Definition signingInput (token : string) : string :=
  GoStrings.Join (firstn 2 (GoStrings.Split token ".")) ".".

(** The claims of a token that is authentic under the secret of
    [jwtMaker]: the token has three segments, the first decodes to a
    header that names an algorithm of the HMAC family, the second decodes
    to the claims, and the third decodes to the HMAC, with the hash that
    the header names and the secret as key, of the first two segments.
    [None] for any other string. *)
Definition authenticClaims {E : jwt.Encoding} (jwtMaker : JWTMaker)
    (token : string) : option Payload :=
  match GoStrings.Split token "." with
  | [part0; part1; part2] =>
      match jwt.DecodeSegment part0 with
      | Some headerBytes =>
          match jwt.unmarshalHeader headerBytes with
          | Some header =>
              match jwt.alg header with
              | Some a =>
                  match hmacHash a with
                  | Some h =>
                      match jwt.DecodeSegment part1 with
                      | Some claimBytes =>
                          match jwt.unmarshalClaims claimBytes with
                          | Some claims =>
                              match jwt.DecodeSegment part2 with
                              | Some sig =>
                                  if String.eqb sig
                                       (jwt.hmac h (secretKey jwtMaker)
                                                 (GoStrings.Join [part0; part1] "."))
                                  then Some claims
                                  else None
                              | None => None
                              end
                          | None => None
                          end
                      | None => None
                      end
                  | None => None
                  end
              | None => None
              end
          | None => None
          end
      | None => None
      end
  | _ => None
  end.

(** No byte of [s] is in the table [asciiSpace]. *)
Fixpoint spaceFree (s : string) : bool :=
  match s with
  | EmptyString => true
  | String c r => negb (GoStrings.asciiSpace c) && spaceFree r
  end.

(** Every byte of [s] is in the table [asciiSpace]. *)
Fixpoint allSpace (s : string) : bool :=
  match s with
  | EmptyString => true
  | String c r => GoStrings.asciiSpace c && allSpace r
  end.

(** A word that [strings.Fields] keeps whole: ASCII, not empty, without
    white space. *)
Definition word (s : string) : bool :=
  GoStrings.isASCII s && negb (String.eqb s "") && spaceFree s.

(** [http.Header.Add(key, value)]: the value is appended to those under
    the canonical key. *)
Definition Header_Add (h : gmap string (list string)) (key value : string)
    : gmap string (list string) :=
  let k := gin.CanonicalMIMEHeaderKey key in
  <[k := List.app (default [] (h !! k)) [value]]> h.

(** [addAuthHeader] of [api/middleware_test.go]: the token that the maker
    creates for [username] is written as ["<type> <token>"] under the
    authorization key of [request].  [createToken] is the maker's
    [CreateToken] as this test calls it, with the duration as argument and
    the token and the error as results; [None] is the end of the test at
    [require.NoError]. *)
Definition addAuthHeader (createToken : string -> Z -> string * option error)
    (request : gin.Context) (authHeaderType username : string) (duration : Z)
    : option gin.Context :=
  match createToken username duration with
  | (_, Some _) => None
  | (token, None) =>
      let authHeader := authHeaderType ++ " " ++ token in
      Some (gin.mkContext
              (Header_Add (gin.Header request) authorizationHeaderKey authHeader)
              (gin.Keys request) (gin.IsAborted request) (gin.Written request))
  end.

(** A maker that answers like [tokenMaker] on words, and with an empty
    payload on every other string. *)
Definition lenientOffWords (tokenMaker : Maker) : Maker :=
  mkMaker (CreateToken tokenMaker) (CreateRefreshToken tokenMaker)
          (fun now token =>
             if word token then VerifyToken tokenMaker now token
             else (Some Payload_zero, None)).

(** * Properties *)

(** Case analysis on the innermost scrutinee of the goal. *)
Ltac case_scrutinee :=
  match goal with
  | |- context [match ?x with _ => _ end] =>
      lazymatch x with
      | context [match _ with _ => _ end] => fail
      | _ => destruct x eqn:?
      end
  end.


(** ** Strings: appending, splitting and joining *)

Lemma append_cons (a : ascii) (s t : string) :
  String a s ++ t = String a (s ++ t).
Proof. reflexivity. Qed.

Lemma append_nil_r (s : string) : s ++ "" = s.
Proof.
  induction s as [|a s IH]; [reflexivity|].
  rewrite append_cons, IH. reflexivity.
Qed.

Lemma append_assoc (s t u : string) : (s ++ t) ++ u = s ++ (t ++ u).
Proof.
  induction s as [|a s IH]; [reflexivity|].
  rewrite !append_cons, IH. reflexivity.
Qed.

Lemma free_append (c : ascii) (s t : string) :
  GoStrings.free c (s ++ t) = GoStrings.free c s && GoStrings.free c t.
Proof.
  induction s as [|a s IH]; [reflexivity|].
  rewrite append_cons. cbn [GoStrings.free]. rewrite IH.
  apply andb_assoc.
Qed.

(** A string without the separator is one piece. *)
Lemma splitFrom_free (sep : ascii) (a cur : string) :
  GoStrings.free sep a = true ->
  GoStrings.splitFrom sep cur a = [cur ++ a].
Proof.
  revert cur. induction a as [|c a IH]; intros cur Hfree.
  - cbn. rewrite append_nil_r. reflexivity.
  - cbn in Hfree |- *. destruct (Ascii.eqb c sep); [discriminate|].
    rewrite IH by exact Hfree. rewrite append_assoc. reflexivity.
Qed.

(** The first separator after a piece without one cuts it off. *)
Lemma splitFrom_cut (sep : ascii) (a cur r : string) :
  GoStrings.free sep a = true ->
  GoStrings.splitFrom sep cur (a ++ String sep r)
    = (cur ++ a) :: GoStrings.splitFrom sep "" r.
Proof.
  revert cur. induction a as [|c a IH]; intros cur Hfree.
  - change ("" ++ String sep r) with (String sep r). cbn.
    rewrite Ascii.eqb_refl, append_nil_r. reflexivity.
  - rewrite append_cons. cbn in Hfree |- *.
    destruct (Ascii.eqb c sep); [discriminate|].
    rewrite IH by exact Hfree. rewrite append_assoc. reflexivity.
Qed.

Lemma Split_Join2 (sep : ascii) (a b : string) :
  GoStrings.free sep a = true -> GoStrings.free sep b = true ->
  GoStrings.Split (GoStrings.Join [a; b] (String sep "")) sep = [a; b].
Proof.
  intros Ha Hb. unfold GoStrings.Split. cbn [GoStrings.Join].
  rewrite append_cons. change ("" ++ b) with b.
  rewrite splitFrom_cut by exact Ha.
  rewrite splitFrom_free by exact Hb. reflexivity.
Qed.

Lemma Split_Join3 (sep : ascii) (a b c : string) :
  GoStrings.free sep a = true -> GoStrings.free sep b = true ->
  GoStrings.free sep c = true ->
  GoStrings.Split (GoStrings.Join [a; b; c] (String sep "")) sep = [a; b; c].
Proof.
  intros Ha Hb Hc. unfold GoStrings.Split. cbn [GoStrings.Join].
  rewrite !append_cons. change ("" ++ b ++ String sep ("" ++ c))
    with (b ++ String sep c).
  rewrite splitFrom_cut by exact Ha.
  rewrite splitFrom_cut by exact Hb.
  rewrite splitFrom_free by exact Hc. reflexivity.
Qed.

Lemma Split_Join4 (sep : ascii) (a b c d : string) :
  GoStrings.free sep a = true -> GoStrings.free sep b = true ->
  GoStrings.free sep c = true -> GoStrings.free sep d = true ->
  GoStrings.Split (GoStrings.Join [a; b; c; d] (String sep "")) sep
    = [a; b; c; d].
Proof.
  intros Ha Hb Hc Hd. unfold GoStrings.Split. cbn [GoStrings.Join].
  rewrite !append_cons.
  change ("" ++ b ++ String sep ("" ++ c ++ String sep ("" ++ d)))
    with (b ++ String sep (c ++ String sep d)).
  rewrite splitFrom_cut by exact Ha.
  rewrite splitFrom_cut by exact Hb.
  rewrite splitFrom_cut by exact Hc.
  rewrite splitFrom_free by exact Hd. reflexivity.
Qed.

(** ** The sample encoding satisfies the laws *)

Lemma Sample_decodeBits_encodeBits (s : string) :
  Sample.decodeBits (Sample.encodeBits s) = Some s.
Proof.
  induction s as [|c s IH]; [reflexivity|].
  cbn [Sample.encodeBits].
  destruct c as [b0 b1 b2 b3 b4 b5 b6 b7].
  unfold Sample.encodeByte. rewrite !append_cons.
  change ("" ++ Sample.encodeBits s) with (Sample.encodeBits s).
  cbn [Sample.decodeBits]. rewrite IH.
  destruct b0, b1, b2, b3, b4, b5, b6, b7; reflexivity.
Qed.

(** The digits never contain a byte that is not ["0"] or ["1"]. *)
Lemma Sample_encodeBits_free (c : ascii) (s : string) :
  Sample.charBit c = None ->
  GoStrings.free c (Sample.encodeBits s) = true.
Proof.
  intros Hc. induction s as [|a s IH]; [reflexivity|].
  cbn [Sample.encodeBits]. rewrite free_append, IH, andb_true_r.
  assert (Hbit : forall b, Ascii.eqb (Sample.bitChar b) c = false).
  { intros b. destruct (Ascii.eqb_spec (Sample.bitChar b) c) as [<-|]; [|reflexivity].
    destruct b; discriminate Hc. }
  destruct a as [b0 b1 b2 b3 b4 b5 b6 b7].
  cbn [Sample.encodeByte GoStrings.free]. rewrite !Hbit. reflexivity.
Qed.

Lemma Sample_digitsPos_posDigits (p : positive) :
  Sample.digitsPos (Sample.posDigits p) = Some p.
Proof.
  induction p as [p IH|p IH|]; cbn; rewrite ?IH; reflexivity.
Qed.

Lemma Sample_posDigits_free (c : ascii) (p : positive) :
  Sample.charBit c = None ->
  GoStrings.free c (Sample.posDigits p) = true.
Proof.
  intros Hc.
  assert (Hbit : forall b, Ascii.eqb (Sample.bitChar b) c = false).
  { intros b. destruct (Ascii.eqb_spec (Sample.bitChar b) c) as [<-|]; [|reflexivity].
    destruct b; discriminate Hc. }
  pose proof (Hbit true) as H1. pose proof (Hbit false) as H0.
  change (Sample.bitChar true) with "1"%char in H1.
  change (Sample.bitChar false) with "0"%char in H0.
  induction p as [p IH|p IH|]; cbn [Sample.posDigits GoStrings.free];
    rewrite ?IH, ?H1, ?H0; reflexivity.
Qed.

Lemma Sample_readZ_writeZ (z : Z) : Sample.readZ (Sample.writeZ z) = Some z.
Proof.
  destruct z as [|p|p]; cbn; rewrite ?Sample_digitsPos_posDigits; reflexivity.
Qed.

Lemma Sample_writeZ_free_comma (z : Z) :
  GoStrings.free "," (Sample.writeZ z) = true.
Proof.
  destruct z as [|p|p]; cbn [Sample.writeZ GoStrings.free];
    rewrite ?Sample_posDigits_free; reflexivity.
Qed.

Lemma Sample_readOption_writeOption (o : option string) :
  Sample.readOption (Sample.writeOption o) = Some o.
Proof.
  destruct o as [s|]; cbn; rewrite ?Sample_decodeBits_encodeBits; reflexivity.
Qed.

Lemma Sample_writeOption_free_comma (o : option string) :
  GoStrings.free "," (Sample.writeOption o) = true.
Proof.
  destruct o as [s|]; cbn [Sample.writeOption GoStrings.free];
    rewrite ?Sample_encodeBits_free; reflexivity.
Qed.

Lemma Sample_readHeader_writeHeader (h : jwt.Header) :
  exists s, Sample.writeHeader h = Some s /\ Sample.readHeader s = Some h.
Proof.
  eexists. split; [reflexivity|].
  unfold Sample.readHeader.
  rewrite (Split_Join2 ",") by apply Sample_writeOption_free_comma.
  rewrite !Sample_readOption_writeOption. destruct h; reflexivity.
Qed.

Lemma Sample_readClaims_writeClaims (p : Payload) :
  exists s, Sample.writeClaims p = Some s
            /\ Sample.readClaims s = Some (jsonPayload p).
Proof.
  eexists. split; [reflexivity|].
  unfold Sample.readClaims.
  rewrite (Split_Join4 ",");
    try apply Sample_writeZ_free_comma;
    try (apply Sample_encodeBits_free; reflexivity).
  rewrite !Sample_decodeBits_encodeBits, !Sample_readZ_writeZ.
  reflexivity.
Qed.

Lemma Sample_encoding_laws : jwt.EncodingLaws Sample.encoding.
Proof.
  constructor; cbn.
  - apply Sample_decodeBits_encodeBits.
  - intros b. apply Sample_encodeBits_free. reflexivity.
  - intros m. apply Sample_readHeader_writeHeader.
  - apply Sample_readClaims_writeClaims.
Qed.

(** ** Construction of the maker *)

(** C6.  Constructing a maker from a secret fails, with the error that
    reports the short key and without returning a maker, exactly when the
    secret has fewer than 32 bytes; from 32 bytes on the maker is
    returned. *)
Theorem NewJWTMaker_weak_key {U : GoStrings.Unicode} {E : jwt.Encoding}
    (AccessTokenExpiration : Z) (secretKey : string) :
  ((exists err, NewJWTMaker AccessTokenExpiration secretKey = (None, Some err))
   <-> (String.length secretKey < 32)%nat)
  /\ ((exists maker, NewJWTMaker AccessTokenExpiration secretKey = (Some maker, None))
      <-> (32 <= String.length secretKey)%nat).
Proof.
  unfold NewJWTMaker, minSecretKeyLen.
  destruct (Nat.ltb_spec (String.length secretKey) 32) as [Hlt|Hge].
  - split; split.
    + intros _. exact Hlt.
    + intros _. eexists. reflexivity.
    + intros [maker Hm]. discriminate Hm.
    + intros Hge. lia.
  - split; split.
    + intros [err He]. discriminate He.
    + intros Hlt. lia.
    + intros _. exact Hge.
    + intros _. eexists. reflexivity.
Qed.

(** ** Verification: algorithms *)

Lemma GetSigningMethod_Alg (a : string) (m : jwt.SigningMethod) :
  jwt.GetSigningMethod a = Some m -> jwt.Alg m = a.
Proof.
  unfold jwt.GetSigningMethod. intros Hfind.
  apply List.find_some in Hfind. destruct Hfind as [_ Heq].
  apply String.eqb_eq in Heq. exact Heq.
Qed.

Lemma lor_SignatureInvalid (f : N) :
  (N.lor f jwt.ValidationErrorSignatureInvalid =? 0)%N = false.
Proof.
  apply N.eqb_neq. intros H0. apply N.lor_eq_0_iff in H0.
  destruct H0 as [_ H0]. discriminate H0.
Qed.

(** Under a key of bytes, a method outside the HMAC family verifies
    nothing: its error is a key or coding error, never an expiry. *)
Lemma Verify_bytes_key {E : jwt.Encoding} (m : jwt.SigningMethod)
    (signingString signature keyBytes : string) :
  jwt.isHMAC m = false ->
  exists err, jwt.Verify m signingString signature (jwt.KeyBytes keyBytes) = Some err
              /\ errors_Is err ErrTokenExpired = false.
Proof.
  intros Hm. destruct m as [h|h|h|h| |]; try discriminate Hm; cbn;
    try (destruct (jwt.DecodeSegment signature)); eexists; split;
    try reflexivity.
Qed.

(** ** The parser *)

(** An error of [ParseUnverified] is a validation error that wraps no
    expiry and flags a malformed or an unverifiable token. *)
Lemma ParseUnverified_error {U : GoStrings.Unicode} {E : jwt.Encoding}
    (tokenString : string) (err : error) :
  snd (jwt.ParseUnverified tokenString) = Some err ->
  exists inner flags,
    err = ValidationError inner flags
    /\ errors_Is err ErrTokenExpired = false
    /\ (flags = jwt.ValidationErrorMalformed
        \/ flags = jwt.ValidationErrorUnverifiable).
Proof.
  unfold jwt.ParseUnverified.
  repeat case_scrutinee; cbn [snd]; intros Herr;
    inversion Herr; subst; clear Herr;
    do 2 eexists; (split; [reflexivity|]); split; try reflexivity;
    (left; reflexivity) || (right; reflexivity).
Qed.

(** A token that [ParseUnverified] accepts has three segments, a header
    and claims that decode, and a registered method under the name its
    header claims. *)
Lemma ParseUnverified_ok {U : GoStrings.Unicode} {E : jwt.Encoding}
    (tokenString : string) (token : option jwt.Token) (parts : list string) :
  jwt.ParseUnverified tokenString = (token, parts, None) ->
  exists part0 part1 part2 header claims a m,
    parts = [part0; part1; part2]
    /\ token = Some (jwt.mkToken tokenString (Some m) header claims "" false)
    /\ claimedAlg tokenString = Some a
    /\ jwt.GetSigningMethod a = Some m.
Proof.
  unfold jwt.ParseUnverified, claimedAlg.
  repeat case_scrutinee; intros Hparse; inversion Hparse; subst; clear Hparse.
  do 7 eexists. repeat split; eassumption.
Qed.

(** No error of a signature check wraps an expiry. *)
Lemma Verify_error_no_expiry {E : jwt.Encoding} (m : jwt.SigningMethod)
    (signingString signature : string) (key : jwt.Key) (err : error) :
  jwt.Verify m signingString signature key = Some err ->
  errors_Is err ErrTokenExpired = false.
Proof.
  destruct m, key; cbn; repeat case_scrutinee; intros Herr;
    inversion Herr; reflexivity.
Qed.

Lemma JWTMaker_VerifyToken_parsed {U : GoStrings.Unicode} {E : jwt.Encoding}
    (jwtMaker : JWTMaker) (now : Z) (tokenString : string)
    (m : jwt.SigningMethod) (header : jwt.Header) (claims : Payload)
    (parts : list string) :
  jwt.ParseUnverified tokenString
    = (Some (jwt.mkToken tokenString (Some m) header claims "" false), parts, None) ->
  JWTMaker_VerifyToken jwtMaker now tokenString
    = verdict jwtMaker now m claims parts.
Proof.
  intros Hparse. unfold JWTMaker_VerifyToken, jwt.ParseWithClaims, verdict.
  rewrite Hparse.
  assert (Hkey : forall m',
             match m' with jwt.SigningMethodECDSA _ => False | _ => True end ->
             keyFunc jwtMaker
               (jwt.mkToken tokenString (Some m') header claims "" false)
             = (jwt.KeyBytes (secretKey jwtMaker), None)).
  { intros m' Hm'. destruct m'; try reflexivity. destruct Hm'. }
  destruct m as [h|h|h|h| |]; try reflexivity;
    rewrite Hkey by exact I; cbn [jwt.Method jwt.Claims jwt.Raw jwt.TokenHeader];
    (destruct (jwt.Verify _ _ _ _) as [err|] eqn:Hverify;
     [ apply Verify_error_no_expiry in Hverify;
       cbn [snd fst]; rewrite lor_SignatureInvalid;
       cbn [errors_Is error_eqb orb andb]; rewrite Hverify; reflexivity
     | unfold Valid; destruct (ExpireAt claims <? now); reflexivity ]).
Qed.

Lemma JWTMaker_VerifyToken_unparsed {U : GoStrings.Unicode} {E : jwt.Encoding}
    (jwtMaker : JWTMaker) (now : Z) (tokenString : string) (err : error) :
  snd (jwt.ParseUnverified tokenString) = Some err ->
  JWTMaker_VerifyToken jwtMaker now tokenString = (None, Some ErrTokenInvalid).
Proof.
  intros Herr.
  destruct (ParseUnverified_error tokenString err Herr) as (i & f & -> & His & _).
  unfold JWTMaker_VerifyToken, jwt.ParseWithClaims.
  destruct (jwt.ParseUnverified tokenString) as [[token parts] e].
  cbn [snd] in Herr. subst e.
  destruct token; cbv beta iota zeta; rewrite His; reflexivity.
Qed.

Lemma Alg_not_hmac (m : jwt.SigningMethod) :
  hmacAlg (jwt.Alg m) = false -> jwt.isHMAC m = false.
Proof. destruct m as [[]|[]|[]|[]| |]; cbn; congruence. Qed.

(** C2.  A token whose header claims an algorithm outside the HMAC family
    (an RSA, RSA-PSS, ECDSA or EdDSA signature, "none", or an unregistered
    name) is rejected by [VerifyToken], with [ErrTokenInvalid]. *)
Theorem VerifyToken_rejects_other_algorithms
    {U : GoStrings.Unicode} {E : jwt.Encoding}
    (jwtMaker : JWTMaker) (now : Z) (token a : string) :
  claimedAlg token = Some a ->
  hmacAlg a = false ->
  JWTMaker_VerifyToken jwtMaker now token = (None, Some ErrTokenInvalid).
Proof.
  intros Hclaimed Hother.
  destruct (jwt.ParseUnverified token) as [[t parts] [err|]] eqn:Hparse.
  - apply JWTMaker_VerifyToken_unparsed with (err := err).
    rewrite Hparse. reflexivity.
  - destruct (ParseUnverified_ok token t parts Hparse)
      as (p0 & p1 & p2 & header & claims & a' & m & -> & -> & Ha' & Hm).
    rewrite Hclaimed in Ha'. injection Ha' as <-.
    apply GetSigningMethod_Alg in Hm. subst a.
    apply Alg_not_hmac in Hother.
    rewrite (JWTMaker_VerifyToken_parsed jwtMaker now token m header claims
               [p0; p1; p2] Hparse).
    unfold verdict.
    destruct (Verify_bytes_key m (GoStrings.Join (firstn 2 [p0; p1; p2]) ".")
                (nth 2 [p0; p1; p2] "") (secretKey jwtMaker) Hother)
      as (err & -> & _).
    destruct m; reflexivity.
Qed.

(** ** Verification: the errors *)

(** An error of the parser is a validation error; it wraps an expiry only
    when the expiry is all it reports: the token was authentic and its
    claims had expired. *)
Lemma ParseWithClaims_error {U : GoStrings.Unicode} {E : jwt.Encoding}
    (jwtMaker : JWTMaker) (now : Z) (token : string) (err : error) :
  snd (jwt.ParseWithClaims (Valid now) token (keyFunc jwtMaker)) = Some err ->
  exists inner flags,
    err = ValidationError inner flags
    /\ (errors_Is err ErrTokenExpired = true ->
        inner = Some ErrTokenExpired /\ flags = jwt.ValidationErrorClaimsInvalid).
Proof.
  unfold jwt.ParseWithClaims.
  destruct (jwt.ParseUnverified token) as [[t parts] [e|]] eqn:Hparse.
  - destruct (ParseUnverified_error token e) as (i & f & -> & His & _).
    { rewrite Hparse. reflexivity. }
    destruct t; cbn [snd]; intros Herr; injection Herr as <-;
      exists i, f; (split; [reflexivity|]); rewrite His; discriminate.
  - destruct (ParseUnverified_ok token t parts Hparse)
      as (p0 & p1 & p2 & header & claims & a' & m & -> & -> & _ & _).
    assert (Hkey : forall m',
               match m' with jwt.SigningMethodECDSA _ => False | _ => True end ->
               keyFunc jwtMaker (jwt.mkToken token (Some m') header claims "" false)
               = (jwt.KeyBytes (secretKey jwtMaker), None)).
    { intros m' Hm'. destruct m'; try reflexivity. destruct Hm'. }
    destruct m as [h|h|h|h| |];
      try (cbn; intros Herr; injection Herr as <-; do 2 eexists;
           split; [reflexivity|discriminate]);
      rewrite Hkey by exact I; cbn [jwt.Method jwt.Claims jwt.Raw jwt.TokenHeader];
      (destruct (jwt.Verify _ _ _ _) as [e|] eqn:Hverify;
       [ apply Verify_error_no_expiry in Hverify;
         cbn [snd fst]; rewrite lor_SignatureInvalid; cbn [snd];
         intros Herr; injection Herr as <-; do 2 eexists;
         split; [reflexivity|];
         cbn [errors_Is error_eqb orb]; rewrite Hverify; discriminate
       | unfold Valid; destruct (ExpireAt claims <? now); cbn;
         intros Herr; [injection Herr as <-|discriminate Herr];
         do 2 eexists; split; [reflexivity|]; intros _; split; reflexivity ]).
Qed.

Lemma JWTMaker_VerifyToken_error {U : GoStrings.Unicode} {E : jwt.Encoding}
    (jwtMaker : JWTMaker) (now : Z) (token : string) (err : error) :
  snd (jwt.ParseWithClaims (Valid now) token (keyFunc jwtMaker)) = Some err ->
  JWTMaker_VerifyToken jwtMaker now token
    = (None, Some (if errors_Is err ErrTokenExpired
                   then ErrTokenExpired else ErrTokenInvalid)).
Proof.
  intros Herr.
  destruct (ParseWithClaims_error jwtMaker now token err Herr)
    as (i & f & -> & _).
  unfold JWTMaker_VerifyToken.
  destruct (jwt.ParseWithClaims (Valid now) token (keyFunc jwtMaker)) as [t e].
  cbn [snd] in Herr. subst e.
  destruct t; cbv beta iota zeta;
    destruct (errors_Is (ValidationError i f) ErrTokenExpired); reflexivity.
Qed.

(** [VerifyToken] has three results: one of the two errors with a nil
    payload, or a payload without an error. *)
Lemma JWTMaker_VerifyToken_results {U : GoStrings.Unicode} {E : jwt.Encoding}
    (jwtMaker : JWTMaker) (now : Z) (token : string) :
  JWTMaker_VerifyToken jwtMaker now token = (None, Some ErrTokenInvalid)
  \/ JWTMaker_VerifyToken jwtMaker now token = (None, Some ErrTokenExpired)
  \/ exists payload,
       JWTMaker_VerifyToken jwtMaker now token = (Some payload, None).
Proof.
  destruct (jwt.ParseUnverified token) as [[t parts] [err|]] eqn:Hparse.
  - left. apply JWTMaker_VerifyToken_unparsed with (err := err).
    rewrite Hparse. reflexivity.
  - destruct (ParseUnverified_ok token t parts Hparse)
      as (p0 & p1 & p2 & header & claims & a & m & -> & -> & _ & _).
    rewrite (JWTMaker_VerifyToken_parsed jwtMaker now token m header claims
               [p0; p1; p2] Hparse).
    unfold verdict.
    destruct m; auto;
      (destruct (jwt.Verify _ _ _ _); [auto|]);
      (destruct (ExpireAt claims <? now); [auto|]);
      right; right; eexists; reflexivity.
Qed.

(** C3, as the code has it.  [VerifyToken] answers a failure with one of
    two errors: [ErrTokenExpired] when the token is authentic and its
    payload has expired, and the generic [ErrTokenInvalid] for every other
    cause: a malformed token, a failed signature check and any other error
    alike. *)
Theorem VerifyToken_error_kinds {U : GoStrings.Unicode} {E : jwt.Encoding}
    (jwtMaker : JWTMaker) (now : Z) (token : string) :
  (JWTMaker_VerifyToken jwtMaker now token = (None, Some ErrTokenInvalid)
   \/ JWTMaker_VerifyToken jwtMaker now token = (None, Some ErrTokenExpired)
   \/ exists payload,
        JWTMaker_VerifyToken jwtMaker now token = (Some payload, None))
  /\ forall err,
       snd (jwt.ParseWithClaims (Valid now) token (keyFunc jwtMaker)) = Some err ->
       JWTMaker_VerifyToken jwtMaker now token
         = (None, Some (match causeOf err with
                        | TokenExpired => ErrTokenExpired
                        | TokenMalformed | TokenSignatureInvalid | TokenInvalid =>
                            ErrTokenInvalid
                        end)).
Proof.
  split.
  - apply JWTMaker_VerifyToken_results.
  - intros err Herr.
    rewrite (JWTMaker_VerifyToken_error jwtMaker now token err Herr).
    destruct (ParseWithClaims_error jwtMaker now token err Herr)
      as (i & f & -> & Hexp).
    unfold causeOf.
    destruct (errors_Is (ValidationError i f) ErrTokenExpired) eqn:His.
    + destruct (Hexp eq_refl) as [-> ->]. reflexivity.
    + repeat case_scrutinee; reflexivity.
Qed.

(** ** Creation and verification *)

(** The token that [CreateToken] signs is one the parser accepts: it reads
    back the method, the header and the payload as JSON gives it back, and
    the signature verifies under the maker's key. *)
Lemma CreateToken_parses {U : GoStrings.Unicode} {E : jwt.Encoding}
    {L : jwt.EncodingLaws E} (AccessTokenExpiration : Z) (jwtMaker : JWTMaker)
    (now : Z) (tokenID username : string) :
  username <> "" ->
  let payload :=
    mkPayload tokenID username now (now + AccessTokenExpiration) in
  exists token header parts,
    JWTMaker_CreateToken AccessTokenExpiration jwtMaker now (Some tokenID) username
      = (token, Some payload, None)
    /\ jwt.ParseUnverified token
       = (Some (jwt.mkToken token (Some jwt.SigningMethodHS512) header
                            (jsonPayload payload) "" false), parts, None)
    /\ jwt.Verify jwt.SigningMethodHS512
         (GoStrings.Join (firstn 2 parts) ".") (nth 2 parts "")
         (jwt.KeyBytes (secretKey jwtMaker)) = None.
Proof.
  intros Hname payload.
  unfold JWTMaker_CreateToken, NewPayload.
  apply String.eqb_neq in Hname. rewrite Hname. fold payload.
  unfold jwt.SignedString, jwt.SigningString, jwt.NewWithClaims.
  cbn [jwt.TokenHeader jwt.Claims jwt.Method].
  destruct (jwt.unmarshalHeader_marshalHeader jwt.SigningMethodHS512)
    as (sh & Hmh & Huh).
  destruct (jwt.unmarshalClaims_marshalClaims payload) as (sc & Hmc & Huc).
  rewrite Hmh, Hmc. cbn [jwt.Sign jwt.SigningMethodHS512].
  set (h := jwt.EncodeSegment sh). set (c := jwt.EncodeSegment sc).
  set (sig := jwt.EncodeSegment
                (jwt.hmac jwt.SHA512 (secretKey jwtMaker) (GoStrings.Join [h; c] "."))).
  assert (Htok : GoStrings.Join [GoStrings.Join [h; c] "."; sig] "."
                 = GoStrings.Join [h; c; sig] ".").
  { cbn [GoStrings.Join]. rewrite !append_assoc. reflexivity. }
  rewrite Htok.
  exists (GoStrings.Join [h; c; sig] "."),
         (jwt.mkHeader (Some "JWT") (Some "HS512")), [h; c; sig].
  split; [reflexivity|]. split.
  - unfold jwt.ParseUnverified.
    rewrite (Split_Join3 ".") by apply jwt.EncodeSegment_no_dot.
    subst h c. rewrite jwt.DecodeSegment_EncodeSegment, Huh.
    rewrite jwt.DecodeSegment_EncodeSegment, Huc.
    reflexivity.
  - cbn [firstn nth jwt.Verify jwt.SigningMethodHS512].
    subst sig. rewrite jwt.DecodeSegment_EncodeSegment.
    rewrite String.eqb_refl. reflexivity.
Qed.

Lemma NewJWTMaker_maker {U : GoStrings.Unicode} {E : jwt.Encoding}
    (AccessTokenExpiration : Z) (secret : string) (maker : Maker) :
  NewJWTMaker AccessTokenExpiration secret = (Some maker, None) ->
  maker = JWTMaker_Maker AccessTokenExpiration (mkJWTMaker secret).
Proof.
  unfold NewJWTMaker. destruct (String.length secret <? minSecretKeyLen)%nat;
    intros Hnew; inversion Hnew. reflexivity.
Qed.

(** A string that is valid UTF-8 comes back from JSON as it was. *)
Lemma coerce_ValidString (s : string) :
  utf8.ValidString s = true -> json.coerce s = s.
Proof.
  assert (Hlen : forall n s, (String.length s <= n)%nat ->
                             utf8.ValidString s = true -> json.coerce s = s).
  { clear s. induction n as [|n IH]; intros s Hn Hvalid.
    - destruct s; [reflexivity|cbn in Hn; lia].
    - destruct s as [|c0 r0]; [reflexivity|].
      cbn [utf8.ValidString json.coerce String.length] in Hn, Hvalid |- *.
      destruct (N_of_ascii c0 <? 128)%N.
      { rewrite IH; [reflexivity|lia|exact Hvalid]. }
      destruct r0 as [|c1 r1]; [discriminate Hvalid|].
      cbn [String.length] in Hn.
      destruct (utf8.seq2 c0 c1).
      { rewrite IH; [reflexivity|lia|exact Hvalid]. }
      destruct r1 as [|c2 r2]; [discriminate Hvalid|].
      cbn [String.length] in Hn.
      destruct (utf8.seq3 c0 c1 c2).
      { rewrite IH; [reflexivity|lia|exact Hvalid]. }
      destruct r2 as [|c3 r3]; [discriminate Hvalid|].
      cbn [String.length] in Hn.
      destruct (utf8.seq4 c0 c1 c2 c3); [|discriminate Hvalid].
      rewrite IH; [reflexivity|lia|exact Hvalid]. }
  apply (Hlen (String.length s)). lia.
Qed.

(** C4, as the code has it.  With a maker built by [NewJWTMaker] whose
    tokens live for a duration [d > 0], [CreateToken] succeeds for every
    non-empty identity [u] that is valid UTF-8 (the random source
    delivering an id), and [VerifyToken] called on the token string at
    once - after any delay up to [d] - returns the payload created, whose
    identity is [u] and on which [Valid] succeeds. *)
Theorem CreateToken_VerifyToken_roundtrip
    {U : GoStrings.Unicode} {E : jwt.Encoding} {L : jwt.EncodingLaws E}
    (d : Z) (secret : string) (maker : Maker)
    (now elapsed : Z) (tokenID u : string) :
  NewJWTMaker d secret = (Some maker, None) ->
  u <> "" ->
  utf8.ValidString u = true ->
  0 < d ->
  0 <= elapsed <= d ->
  exists token payload,
    CreateToken maker now (Some tokenID) u = (token, Some payload, None)
    /\ VerifyToken maker (now + elapsed) token = (Some payload, None)
    /\ Username payload = u
    /\ Valid (now + elapsed) payload = None.
Proof.
  intros Hnew Hu Hutf8 Hd Helapsed.
  apply NewJWTMaker_maker in Hnew. subst maker.
  destruct (CreateToken_parses d (mkJWTMaker secret) now tokenID u Hu)
    as (token & header & parts & Hcreate & Hparse & Hverify).
  exists token, (mkPayload tokenID u now (now + d)).
  cbn [CreateToken VerifyToken JWTMaker_Maker].
  assert (Hlive : (now + d <? now + elapsed) = false) by (apply Z.ltb_ge; lia).
  assert (Hjson : jsonPayload (mkPayload tokenID u now (now + d))
                  = mkPayload tokenID u now (now + d)).
  { unfold jsonPayload. cbn [ID Username IssuedAt ExpireAt].
    rewrite (coerce_ValidString u Hutf8). reflexivity. }
  rewrite Hjson in Hparse.
  split; [exact Hcreate|]. split; [|split].
  - rewrite (JWTMaker_VerifyToken_parsed _ _ _ _ _ _ _ Hparse).
    unfold verdict. cbn [jwt.SigningMethodHS512] in Hverify |- *.
    rewrite Hverify. cbn [ExpireAt]. rewrite Hlive. reflexivity.
  - reflexivity.
  - unfold Valid. cbn [ExpireAt]. rewrite Hlive. reflexivity.
Qed.

(** C5.  With a maker whose tokens are created with a duration [d < 0],
    the token that [CreateToken] returns fails verification, at once and at
    any later time, and the error of [VerifyToken] is [ErrTokenExpired]. *)
Theorem VerifyToken_expired
    {U : GoStrings.Unicode} {E : jwt.Encoding} {L : jwt.EncodingLaws E}
    (d : Z) (secret : string) (maker : Maker)
    (now elapsed : Z) (tokenID u : string) :
  NewJWTMaker d secret = (Some maker, None) ->
  u <> "" ->
  d < 0 ->
  0 <= elapsed ->
  exists token payload,
    CreateToken maker now (Some tokenID) u = (token, Some payload, None)
    /\ VerifyToken maker (now + elapsed) token = (None, Some ErrTokenExpired).
Proof.
  intros Hnew Hu Hd Helapsed.
  apply NewJWTMaker_maker in Hnew. subst maker.
  destruct (CreateToken_parses d (mkJWTMaker secret) now tokenID u Hu)
    as (token & header & parts & Hcreate & Hparse & Hverify).
  exists token, (mkPayload tokenID u now (now + d)).
  cbn [CreateToken VerifyToken JWTMaker_Maker].
  assert (Hdead : (now + d <? now + elapsed) = true) by (apply Z.ltb_lt; lia).
  split; [exact Hcreate|].
  rewrite (JWTMaker_VerifyToken_parsed _ _ _ _ _ _ _ Hparse).
  unfold verdict. cbn [jwt.SigningMethodHS512] in Hverify |- *.
  rewrite Hverify. cbn [ExpireAt jsonPayload]. rewrite Hdead. reflexivity.
Qed.

(** ** The middleware *)

Lemma Fields_empty {U : GoStrings.Unicode} : GoStrings.Fields "" = [].
Proof. reflexivity. Qed.

(** With at least two fields in the header, the middleware checks the type
    and hands the second field to the verification. *)
Lemma authMiddleware_fields {U : GoStrings.Unicode} {W : Type}
    (tokenMaker : Maker) (now : Z) (next : gin.Context -> W -> Outcome W)
    (ctx : gin.Context) (w : W) (fields0 fields1 : string) (rest : list string) :
  GoStrings.Fields (gin.GetHeader ctx authorizationHeaderKey)
    = fields0 :: fields1 :: rest ->
  authMiddleware tokenMaker now next ctx w
    = if String.eqb (GoStrings.ToLower fields0) authorizationTypeBearer
      then tokenVerify tokenMaker now next ctx w fields1
      else rejected ctx w (errorString ("unsupported authorization type "
                                        ++ GoStrings.ToLower fields0)).
Proof.
  intros Hfields. unfold authMiddleware, tokenVerify, rejected, errorResponse.
  destruct (gin.GetHeader ctx authorizationHeaderKey) as [|c h] eqn:Hheader.
  - rewrite Fields_empty in Hfields. discriminate Hfields.
  - rewrite Hfields. cbn [String.length Nat.eqb List.length Nat.ltb Nat.leb].
    destruct (String.eqb (GoStrings.ToLower fields0) authorizationTypeBearer);
      cbn [negb]; [|reflexivity].
    destruct (VerifyToken tokenMaker now fields1) as [[payload|] [err|]];
      reflexivity.
Qed.

Lemma caseVariant_bearer {U : GoStrings.Unicode} (t : string) :
  caseVariant "bearer" t = true -> GoStrings.ToLower t = "bearer".
Proof.
  intros Hvariant.
  repeat (destruct t as [|? t]; [discriminate Hvariant|];
          cbn [caseVariant] in Hvariant;
          apply andb_prop in Hvariant; destruct Hvariant as [? Hvariant]).
  destruct t; [|discriminate Hvariant]. clear Hvariant.
  repeat match goal with
         | H : (_ || _) = true |- _ =>
             apply orb_prop in H; destruct H as [H|H];
             apply Ascii.eqb_eq in H; subst
         end; reflexivity.
Qed.

(** C7, as the code has it.  The header is checked in this order, and each
    rejection aborts the chain with status 401: an absent or empty header
    is rejected with "authorization header not provided"; else a header of
    fewer than two fields with "invalid authorization format"; else a first
    field that does not lower-case to "bearer" with "unsupported
    authorization type " followed by the lower-cased field; and a first
    field that does, so every case variant of "bearer", passes to the
    verification of the second field. *)
Theorem authMiddleware_header_checks {U : GoStrings.Unicode} {W : Type}
    (tokenMaker : Maker) (now : Z) (next : gin.Context -> W -> Outcome W)
    (ctx : gin.Context) (w : W) :
  let header := gin.GetHeader ctx authorizationHeaderKey in
  let outcome := authMiddleware tokenMaker now next ctx w in
  (header = "" ->
   outcome = rejected ctx w (errorString "authorization header not provided"))
  /\ (header <> "" -> (List.length (GoStrings.Fields header) < 2)%nat ->
      outcome = rejected ctx w (errorString "invalid authorization format"))
  /\ (forall fields0 fields1 rest,
        GoStrings.Fields header = fields0 :: fields1 :: rest ->
        GoStrings.ToLower fields0 <> "bearer" ->
        outcome = rejected ctx w
                    (errorString ("unsupported authorization type "
                                  ++ GoStrings.ToLower fields0)))
  /\ (forall fields0 fields1 rest,
        GoStrings.Fields header = fields0 :: fields1 :: rest ->
        GoStrings.ToLower fields0 = "bearer" \/ caseVariant "bearer" fields0 = true ->
        outcome = tokenVerify tokenMaker now next ctx w fields1).
Proof.
  intros header outcome. subst outcome. repeat split.
  - intros Hempty. unfold authMiddleware. fold header. rewrite Hempty.
    reflexivity.
  - intros Hnonempty Hshort. unfold authMiddleware. fold header.
    destruct header as [|c h]; [congruence|].
    cbn [String.length Nat.eqb].
    apply Nat.ltb_lt in Hshort. rewrite Hshort. reflexivity.
  - intros fields0 fields1 rest Hfields Hother.
    rewrite (authMiddleware_fields _ _ _ _ _ _ _ _ Hfields).
    apply String.eqb_neq in Hother. unfold authorizationTypeBearer.
    rewrite Hother. reflexivity.
  - intros fields0 fields1 rest Hfields Hbearer.
    rewrite (authMiddleware_fields _ _ _ _ _ _ _ _ Hfields).
    assert (Hlower : GoStrings.ToLower fields0 = "bearer").
    { destruct Hbearer as [Hb|Hb]; [exact Hb|]. apply caseVariant_bearer, Hb. }
    rewrite Hlower. reflexivity.
Qed.

(** C10.  When the header has more than two fields and the first
    lower-cases to "bearer", the middleware accepts the format and verifies
    the second field: the outcome is that of the verification of the second
    field, whatever the fields after it. *)
Theorem authMiddleware_extra_fields {U : GoStrings.Unicode} {W : Type}
    (tokenMaker : Maker) (now : Z) (next : gin.Context -> W -> Outcome W)
    (ctx : gin.Context) (w : W)
    (fields0 fields1 fields2 : string) (rest : list string) :
  GoStrings.Fields (gin.GetHeader ctx authorizationHeaderKey)
    = fields0 :: fields1 :: fields2 :: rest ->
  GoStrings.ToLower fields0 = "bearer" ->
  authMiddleware tokenMaker now next ctx w
    = tokenVerify tokenMaker now next ctx w fields1.
Proof.
  intros Hfields Hbearer.
  rewrite (authMiddleware_fields _ _ _ _ _ _ _ _ Hfields), Hbearer.
  reflexivity.
Qed.

(** The verification of [JWTMaker] returns no payload with an error. *)
Lemma JWTMaker_VerifyToken_nil {U : GoStrings.Unicode} {E : jwt.Encoding}
    (jwtMaker : JWTMaker) (now : Z) (token : string) (err : error) :
  snd (JWTMaker_VerifyToken jwtMaker now token) = Some err ->
  fst (JWTMaker_VerifyToken jwtMaker now token) = None.
Proof.
  destruct (JWTMaker_VerifyToken_results jwtMaker now token)
    as [-> | [-> | [payload ->]]]; cbn; congruence.
Qed.

(** C9, at what the code does.  With a [JWTMaker], a request that reaches
    the verification with a token that fails it does not reach the
    rejection: [VerifyToken] has returned a nil payload, and the read of
    [payload.ExpireAt] before the test of the error panics. *)
Theorem authMiddleware_failed_verification_panics
    {U : GoStrings.Unicode} {E : jwt.Encoding} {W : Type}
    (AccessTokenExpiration : Z) (jwtMaker : JWTMaker) (now : Z)
    (next : gin.Context -> W -> Outcome W) (ctx : gin.Context) (w : W)
    (fields0 fields1 : string) (rest : list string) (err : error) :
  GoStrings.Fields (gin.GetHeader ctx authorizationHeaderKey)
    = fields0 :: fields1 :: rest ->
  GoStrings.ToLower fields0 = "bearer" ->
  snd (JWTMaker_VerifyToken jwtMaker now fields1) = Some err ->
  authMiddleware (JWTMaker_Maker AccessTokenExpiration jwtMaker) now next ctx w
    = Panicked.
Proof.
  intros Hfields Hbearer Herr.
  rewrite (authMiddleware_fields _ _ _ _ _ _ _ _ Hfields), Hbearer.
  cbn [String.eqb]. unfold tokenVerify. cbn [VerifyToken JWTMaker_Maker].
  pose proof (JWTMaker_VerifyToken_nil jwtMaker now fields1 err Herr) as Hnil.
  destruct (JWTMaker_VerifyToken jwtMaker now fields1) as [payload e].
  cbn [fst] in Hnil. subst payload. reflexivity.
Qed.

(** ** Ownership *)

(** C8.  In the deletion of an account behind the middleware, for a request
    whose token is valid: the handler loads the account first, and answers
    404 when the store has none, whatever the context holds; when the
    account is found and its owner is the identity of the payload, the
    deletion is carried out; when the owner differs, the request is
    rejected with 401 and the store is left as it was. *)
Theorem deleteAccount_ownership {U : GoStrings.Unicode} {W : Type}
    {S : Store W} (tokenMaker : Maker) (now : Z) (ctx : gin.Context) (w : W)
    (id : Z) (fields0 fields1 : string) (rest : list string) (payload : Payload) :
  GoStrings.Fields (gin.GetHeader ctx authorizationHeaderKey)
    = fields0 :: fields1 :: rest ->
  GoStrings.ToLower fields0 = "bearer" ->
  VerifyToken tokenMaker now fields1 = (Some payload, None) ->
  1 <= id ->
  let ctx' := gin.Set_ ctx authorizationPayloadKey payload in
  let outcome := authMiddleware tokenMaker now (deleteAccount id) ctx w in
  (forall ctx0 account,
     GetAccount w id = (account, Some sql_ErrNoRows) ->
     deleteAccount id ctx0 w
       = Returned (gin.JSON ctx0 StatusNotFound (Some sql_ErrNoRows)) w)
  /\ (forall account,
        GetAccount w id = (account, Some sql_ErrNoRows) ->
        outcome = Returned (gin.JSON ctx' StatusNotFound (Some sql_ErrNoRows)) w)
  /\ (forall account,
        GetAccount w id = (account, None) ->
        Owner account = Username payload ->
        outcome = match DeleteAccount w id with
                  | (w', None) => Returned (gin.JSON ctx' StatusOK None) w'
                  | (w', Some err) =>
                      Returned (gin.JSON ctx' StatusInternalServerError (Some err)) w'
                  end)
  /\ (forall account,
        GetAccount w id = (account, None) ->
        Owner account <> Username payload ->
        outcome = Returned (gin.JSON ctx' StatusUnauthorized None) w).
Proof.
  intros Hfields Hbearer Hvalid Hid ctx' outcome.
  assert (Hid' : (id <? 1) = false) by (apply Z.ltb_ge; lia).
  assert (Hrun : outcome = deleteAccount id ctx' w).
  { subst outcome. rewrite (authMiddleware_fields _ _ _ _ _ _ _ _ Hfields), Hbearer.
    unfold tokenVerify. rewrite Hvalid. reflexivity. }
  assert (Hkey : gin.Keys ctx' !! authorizationPayloadKey = Some payload).
  { subst ctx'. unfold gin.Set_. cbn [gin.Keys]. apply lookup_insert_eq. }
  repeat split.
  - intros ctx0 account Hget. unfold deleteAccount.
    rewrite Hid', Hget. reflexivity.
  - intros account Hget. rewrite Hrun. unfold deleteAccount.
    rewrite Hid', Hget. reflexivity.
  - intros account Hget Howner. rewrite Hrun. unfold deleteAccount.
    rewrite Hid', Hget, Hkey, Howner, String.eqb_refl. cbn [negb].
    destruct (DeleteAccount w id) as [w' [err|]]; reflexivity.
  - intros account Hget Howner. rewrite Hrun. unfold deleteAccount.
    rewrite Hid', Hget, Hkey. apply String.eqb_neq in Howner.
    rewrite Howner. reflexivity.
Qed.

(** ** Verification, in closed form *)

Lemma hmacHash_GetSigningMethod (a : string) (m : jwt.SigningMethod) :
  jwt.GetSigningMethod a = Some m ->
  hmacHash a = match m with jwt.SigningMethodHMAC h => Some h | _ => None end.
Proof.
  intros Hm. apply GetSigningMethod_Alg in Hm. subst a.
  destruct m as [[]|[]|[]|[]| |]; reflexivity.
Qed.

Lemma hmacHash_registered (a : string) :
  jwt.GetSigningMethod a = None -> hmacHash a = None.
Proof.
  unfold hmacHash. intros Hnone.
  destruct (String.eqb_spec a "HS256") as [->|_]; [discriminate Hnone|].
  destruct (String.eqb_spec a "HS384") as [->|_]; [discriminate Hnone|].
  destruct (String.eqb_spec a "HS512") as [->|_]; [discriminate Hnone|].
  reflexivity.
Qed.

Lemma ParseUnverified_segments {U : GoStrings.Unicode} {E : jwt.Encoding}
    (token : string) :
  (forall part0 part1 part2,
     GoStrings.Split token "." <> [part0; part1; part2]) ->
  snd (jwt.ParseUnverified token)
    = Some (jwt.NewValidationError jwt.ValidationErrorMalformed).
Proof.
  intros Hparts. unfold jwt.ParseUnverified.
  destruct (GoStrings.Split token ".") as [|p0 [|p1 [|p2 [|p3 l]]]];
    try reflexivity.
  exfalso. apply (Hparts p0 p1 p2). reflexivity.
Qed.

(** [VerifyToken] in closed form, over [authenticClaims]. *)
Lemma JWTMaker_VerifyToken_closed_form {U : GoStrings.Unicode}
    {E : jwt.Encoding} (jwtMaker : JWTMaker) (now : Z) (token : string) :
  JWTMaker_VerifyToken jwtMaker now token
    = match authenticClaims jwtMaker token with
      | Some claims =>
          if ExpireAt claims <? now then (None, Some ErrTokenExpired)
          else (Some claims, None)
      | None => (None, Some ErrTokenInvalid)
      end.
Proof.
  unfold authenticClaims.
  destruct (GoStrings.Split token ".") as [|p0 [|p1 [|p2 [|p3 l]]]] eqn:Hsplit;
    try (apply JWTMaker_VerifyToken_unparsed
           with (err := jwt.NewValidationError jwt.ValidationErrorMalformed);
         apply ParseUnverified_segments; intros; rewrite Hsplit; discriminate).
  destruct (jwt.ParseUnverified token) as [[t parts] [err|]] eqn:Hparse.
  - rewrite (JWTMaker_VerifyToken_unparsed jwtMaker now token err)
      by (rewrite Hparse; reflexivity).
    revert Hparse. unfold jwt.ParseUnverified. rewrite Hsplit.
    destruct (jwt.DecodeSegment p0) as [hb|]; [|reflexivity].
    destruct (jwt.unmarshalHeader hb) as [header|]; [|reflexivity].
    destruct (jwt.alg header) as [a|]; [|reflexivity].
    destruct (hmacHash a) as [h|] eqn:Hhash; [|reflexivity].
    destruct (jwt.DecodeSegment p1) as [cb|]; [|reflexivity].
    destruct (jwt.unmarshalClaims cb) as [claims|]; [|reflexivity].
    destruct (jwt.GetSigningMethod a) as [m|] eqn:Hm; [discriminate|].
    apply hmacHash_registered in Hm. congruence.
  - pose proof Hparse as Hparse'.
    unfold jwt.ParseUnverified in Hparse'. rewrite Hsplit in Hparse'.
    destruct (jwt.DecodeSegment p0) as [hb|];
      [|destruct (GoStrings.HasPrefix _ _); discriminate Hparse'].
    destruct (jwt.unmarshalHeader hb) as [header|]; [|discriminate Hparse'].
    destruct (jwt.DecodeSegment p1) as [cb|]; [|discriminate Hparse'].
    destruct (jwt.unmarshalClaims cb) as [claims|]; [|discriminate Hparse'].
    destruct (jwt.alg header) as [a|]; [|discriminate Hparse'].
    destruct (jwt.GetSigningMethod a) as [m|] eqn:Hm; [|discriminate Hparse'].
    injection Hparse' as <- <-.
    rewrite (JWTMaker_VerifyToken_parsed jwtMaker now token m header claims
               [p0; p1; p2] Hparse).
    rewrite (hmacHash_GetSigningMethod a m Hm).
    unfold verdict.
    destruct m as [h|h|h|h| |]; try reflexivity;
      try (match goal with
           | |- context [jwt.Verify ?m ?s ?g _] =>
               destruct (Verify_bytes_key m s g (secretKey jwtMaker) eq_refl)
                 as (err & -> & _)
           end; reflexivity).
    cbn [jwt.Verify firstn nth].
    destruct (jwt.DecodeSegment p2) as [sig|]; [|reflexivity].
    destruct (String.eqb sig _); reflexivity.
Qed.

(** X1.  What [VerifyToken] answers, by what the token is: a payload
    exactly for a token that is authentic under the maker's secret, whose
    claims the payload is, and that has not expired; [ErrTokenExpired]
    exactly for an authentic token that has expired; [ErrTokenInvalid]
    exactly for a string that is not an authentic token. *)
Theorem VerifyToken_characterised {U : GoStrings.Unicode} {E : jwt.Encoding}
    (jwtMaker : JWTMaker) (now : Z) (token : string) :
  (forall payload,
     JWTMaker_VerifyToken jwtMaker now token = (Some payload, None)
     <-> authenticClaims jwtMaker token = Some payload /\ now <= ExpireAt payload)
  /\ (JWTMaker_VerifyToken jwtMaker now token = (None, Some ErrTokenExpired)
      <-> exists claims,
            authenticClaims jwtMaker token = Some claims /\ ExpireAt claims < now)
  /\ (JWTMaker_VerifyToken jwtMaker now token = (None, Some ErrTokenInvalid)
      <-> authenticClaims jwtMaker token = None).
Proof.
  rewrite JWTMaker_VerifyToken_closed_form.
  destruct (authenticClaims jwtMaker token) as [claims|].
  - destruct (Z.ltb_spec (ExpireAt claims) now) as [Hlt|Hge].
    + split; [|split].
      * intros payload. split; [discriminate|].
        intros [Heq Hle]. injection Heq as <-. lia.
      * split; [|reflexivity]. intros _. exists claims. split; [reflexivity|lia].
      * split; discriminate.
    + split; [|split].
      * intros payload. split.
        -- intros Heq. injection Heq as <-. split; [reflexivity|lia].
        -- intros [Heq _]. injection Heq as <-. reflexivity.
      * split; [discriminate|].
        intros (claims' & Heq & Hlt). injection Heq as <-. lia.
      * split; discriminate.
  - split; [|split].
    + intros payload. split; [discriminate|]. intros [Heq _]. discriminate Heq.
    + split; [discriminate|]. intros (claims & Heq & _). discriminate Heq.
    + split; reflexivity.
Qed.

(** ** Signed tokens *)

(** The token that [SignedString] writes under an HMAC method and a key of
    bytes: its three segments, how the parser reads it (the claims are the
    payload as JSON gives it back), and what [VerifyToken] answers for it
    under any secret. *)
Lemma SignedString_HMAC_parses {U : GoStrings.Unicode} {E : jwt.Encoding}
    {L : jwt.EncodingLaws E} (h : jwt.Hash) (payload : Payload) (key : string) :
  exists sh sc header,
    let hd := jwt.EncodeSegment sh in
    let c := jwt.EncodeSegment sc in
    let sstr := GoStrings.Join [hd; c] "." in
    let tag := jwt.hmac h key sstr in
    let sig := jwt.EncodeSegment tag in
    let token := GoStrings.Join [hd; c; sig] "." in
    jwt.SignedString (jwt.NewWithClaims (jwt.SigningMethodHMAC h) payload)
                     (jwt.KeyBytes key) = (token, None)
    /\ GoStrings.Split token "." = [hd; c; sig]
    /\ jwt.ParseUnverified token
       = (Some (jwt.mkToken token (Some (jwt.SigningMethodHMAC h)) header
                            (jsonPayload payload) "" false), [hd; c; sig], None)
    /\ claimedAlg token = Some (jwt.Alg (jwt.SigningMethodHMAC h))
    /\ forall jwtMaker now,
         JWTMaker_VerifyToken jwtMaker now token
         = if String.eqb tag (jwt.hmac h (secretKey jwtMaker) sstr)
           then if ExpireAt payload <? now then (None, Some ErrTokenExpired)
                else (Some (jsonPayload payload), None)
           else (None, Some ErrTokenInvalid).
Proof.
  unfold jwt.SignedString, jwt.SigningString, jwt.NewWithClaims.
  cbn [jwt.TokenHeader jwt.Claims jwt.Method].
  destruct (jwt.unmarshalHeader_marshalHeader (jwt.SigningMethodHMAC h))
    as (sh & Hmh & Huh).
  destruct (jwt.unmarshalClaims_marshalClaims payload) as (sc & Hmc & Huc).
  rewrite Hmh, Hmc. cbn [jwt.Sign].
  exists sh, sc,
         (jwt.mkHeader (Some "JWT") (Some (jwt.Alg (jwt.SigningMethodHMAC h)))).
  cbv zeta.
  set (hd := jwt.EncodeSegment sh). set (c := jwt.EncodeSegment sc).
  set (sstr := GoStrings.Join [hd; c] ".").
  set (tag := jwt.hmac h key sstr).
  set (sig := jwt.EncodeSegment tag).
  assert (Htok : GoStrings.Join [sstr; sig] "." = GoStrings.Join [hd; c; sig] ".").
  { subst sstr. cbn [GoStrings.Join]. rewrite !append_assoc. reflexivity. }
  assert (Hsplit : GoStrings.Split (GoStrings.Join [hd; c; sig] ".") "."
                   = [hd; c; sig]).
  { apply (Split_Join3 "."); apply jwt.EncodeSegment_no_dot. }
  assert (Hparse : jwt.ParseUnverified (GoStrings.Join [hd; c; sig] ".")
                   = (Some (jwt.mkToken (GoStrings.Join [hd; c; sig] ".")
                              (Some (jwt.SigningMethodHMAC h))
                              (jwt.mkHeader (Some "JWT")
                                 (Some (jwt.Alg (jwt.SigningMethodHMAC h))))
                              (jsonPayload payload) "" false), [hd; c; sig], None)).
  { unfold jwt.ParseUnverified. rewrite Hsplit.
    subst hd c. rewrite jwt.DecodeSegment_EncodeSegment, Huh.
    rewrite jwt.DecodeSegment_EncodeSegment, Huc.
    destruct h; reflexivity. }
  split; [rewrite Htok; reflexivity|].
  split; [exact Hsplit|]. split; [exact Hparse|]. split.
  - unfold claimedAlg. rewrite Hsplit.
    subst hd. rewrite jwt.DecodeSegment_EncodeSegment, Huh. reflexivity.
  - intros jwtMaker now.
    rewrite (JWTMaker_VerifyToken_parsed _ _ _ _ _ _ _ Hparse).
    unfold verdict. cbn [jwt.Verify firstn nth].
    subst sig. rewrite jwt.DecodeSegment_EncodeSegment.
    fold sstr. cbn [ExpireAt jsonPayload].
    destruct (String.eqb tag _); reflexivity.
Qed.

(** What [CreateToken] returns for a non-empty user name when the random
    source delivers an id. *)
Lemma JWTMaker_CreateToken_signed {U : GoStrings.Unicode} {E : jwt.Encoding}
    (d : Z) (jwtMaker : JWTMaker) (now : Z) (tokenID username : string) :
  username <> "" ->
  let payload := mkPayload tokenID username now (now + d) in
  JWTMaker_CreateToken d jwtMaker now (Some tokenID) username
  = (fst (jwt.SignedString (jwt.NewWithClaims jwt.SigningMethodHS512 payload)
                           (jwt.KeyBytes (secretKey jwtMaker))),
     Some payload,
     snd (jwt.SignedString (jwt.NewWithClaims jwt.SigningMethodHS512 payload)
                           (jwt.KeyBytes (secretKey jwtMaker)))).
Proof.
  intros Hname payload. unfold JWTMaker_CreateToken, NewPayload.
  apply String.eqb_neq in Hname. rewrite Hname. fold payload.
  destruct (jwt.SignedString _ _) as [token err]. reflexivity.
Qed.

(** X2.  The method is not pinned at verification: a token signed under
    the maker's secret with any method of the HMAC family - HS256 and
    HS384 as well as the HS512 that [CreateToken] uses - is answered like
    a token of the maker: with its claims - the payload as JSON gives it
    back - until it expires, with [ErrTokenExpired] after. *)
Theorem VerifyToken_accepts_every_HMAC {U : GoStrings.Unicode}
    {E : jwt.Encoding} {L : jwt.EncodingLaws E}
    (h : jwt.Hash) (payload : Payload) (jwtMaker : JWTMaker) (now : Z) :
  exists token,
    jwt.SignedString (jwt.NewWithClaims (jwt.SigningMethodHMAC h) payload)
                     (jwt.KeyBytes (secretKey jwtMaker)) = (token, None)
    /\ claimedAlg token = Some (jwt.Alg (jwt.SigningMethodHMAC h))
    /\ JWTMaker_VerifyToken jwtMaker now token
       = if ExpireAt payload <? now then (None, Some ErrTokenExpired)
         else (Some (jsonPayload payload), None).
Proof.
  destruct (SignedString_HMAC_parses h payload (secretKey jwtMaker))
    as (sh & sc & header & Hsigned & _ & _ & Halg & Hverify).
  cbv zeta in Hsigned, Halg, Hverify.
  set (hd := jwt.EncodeSegment sh) in *. set (c := jwt.EncodeSegment sc) in *.
  eexists. split; [exact Hsigned|]. split; [exact Halg|].
  rewrite Hverify, String.eqb_refl. reflexivity.
Qed.

(** X3.  The life time of a token, to the nanosecond: the token that
    [CreateToken] returns at the time [now] verifies at [now + elapsed]
    exactly when [elapsed] is at most the duration [d], and [VerifyToken]
    then returns the payload as JSON gives it back; from then on it
    answers [ErrTokenExpired].  A duration of zero gives a token that
    verifies at the instant of its creation only. *)
Theorem VerifyToken_life_time {U : GoStrings.Unicode} {E : jwt.Encoding}
    {L : jwt.EncodingLaws E} (d : Z) (secret : string) (maker : Maker)
    (now elapsed : Z) (tokenID u : string) :
  NewJWTMaker d secret = (Some maker, None) ->
  u <> "" ->
  exists token payload,
    CreateToken maker now (Some tokenID) u = (token, Some payload, None)
    /\ VerifyToken maker (now + elapsed) token
       = if d <? elapsed then (None, Some ErrTokenExpired)
         else (Some (jsonPayload payload), None).
Proof.
  intros Hnew Hu. apply NewJWTMaker_maker in Hnew. subst maker.
  cbn [CreateToken VerifyToken JWTMaker_Maker].
  rewrite (JWTMaker_CreateToken_signed d (mkJWTMaker secret) now tokenID u Hu).
  destruct (SignedString_HMAC_parses jwt.SHA512
              (mkPayload tokenID u now (now + d)) secret)
    as (sh & sc & header & Hsigned & _ & _ & _ & Hverify).
  cbv zeta in Hsigned, Hverify. cbn [secretKey].
  set (hd := jwt.EncodeSegment sh) in *. set (c := jwt.EncodeSegment sc) in *.
  unfold jwt.SigningMethodHS512. rewrite Hsigned. cbn [fst snd].
  do 2 eexists. split; [reflexivity|].
  rewrite (Hverify (mkJWTMaker secret)). cbn [secretKey ExpireAt].
  rewrite String.eqb_refl.
  destruct (Z.ltb_spec d elapsed), (Z.ltb_spec (now + d) (now + elapsed));
    try reflexivity; lia.
Qed.

(** X4.  A token of another secret: the token that a maker with the secret
    [secret1] creates is answered [ErrTokenInvalid] by a maker with the
    secret [secret2], at any time - expired or not - whenever the two
    secrets give different HMACs of its signing input. *)
Theorem VerifyToken_other_secret {U : GoStrings.Unicode} {E : jwt.Encoding}
    {L : jwt.EncodingLaws E} (d : Z) (secret1 secret2 : string)
    (now t : Z) (tokenID u token : string) (payload : Payload) :
  JWTMaker_CreateToken d (mkJWTMaker secret1) now (Some tokenID) u
    = (token, Some payload, None) ->
  jwt.hmac jwt.SHA512 secret1 (signingInput token)
    <> jwt.hmac jwt.SHA512 secret2 (signingInput token) ->
  JWTMaker_VerifyToken (mkJWTMaker secret2) t token
    = (None, Some ErrTokenInvalid).
Proof.
  intros Hcreate Htags.
  assert (Hu : u <> "").
  { intros ->. unfold JWTMaker_CreateToken, NewPayload in Hcreate.
    discriminate Hcreate. }
  rewrite (JWTMaker_CreateToken_signed d (mkJWTMaker secret1) now tokenID u Hu)
    in Hcreate.
  destruct (SignedString_HMAC_parses jwt.SHA512
              (mkPayload tokenID u now (now + d)) secret1)
    as (sh & sc & header & Hsigned & Hsplit & _ & _ & Hverify).
  cbv zeta in Hsigned, Hsplit, Hverify. cbn [secretKey] in Hcreate.
  set (hd := jwt.EncodeSegment sh) in *. set (c := jwt.EncodeSegment sc) in *.
  set (sstr := GoStrings.Join [hd; c] ".") in *.
  set (tk := GoStrings.Join [hd; c; _] ".") in *.
  unfold jwt.SigningMethodHS512 in Hcreate. rewrite Hsigned in Hcreate.
  cbv beta iota delta [fst snd] in Hcreate. injection Hcreate as <- _.
  rewrite (Hverify (mkJWTMaker secret2)). cbn [secretKey].
  unfold signingInput in Htags. rewrite Hsplit in Htags.
  cbn [firstn] in Htags. fold sstr in Htags.
  apply String.eqb_neq in Htags. rewrite Htags. reflexivity.
Qed.

Lemma jsonPayload_valid (p : Payload) :
  utf8.ValidString (Username p) = true -> jsonPayload p = p.
Proof.
  intros Hvalid. unfold jsonPayload. rewrite (coerce_ValidString _ Hvalid).
  destruct p; reflexivity.
Qed.

(** X5.  A token string names one payload, up to what JSON does to the
    user name: two calls of [CreateToken], with any makers, durations,
    times and ids, that return the same token string have created
    payloads that JSON gives back as the same payload - the same id, the
    same instants, and user names read back alike; the payloads are equal
    when both user names are valid UTF-8. *)
Theorem CreateToken_token_injective {U : GoStrings.Unicode} {E : jwt.Encoding}
    {L : jwt.EncodingLaws E} (d1 d2 : Z) (jwtMaker1 jwtMaker2 : JWTMaker)
    (now1 now2 : Z) (rnd1 rnd2 : option string) (u1 u2 token : string)
    (payload1 payload2 : Payload) :
  JWTMaker_CreateToken d1 jwtMaker1 now1 rnd1 u1 = (token, Some payload1, None) ->
  JWTMaker_CreateToken d2 jwtMaker2 now2 rnd2 u2 = (token, Some payload2, None) ->
  jsonPayload payload1 = jsonPayload payload2
  /\ (utf8.ValidString (Username payload1) = true ->
      utf8.ValidString (Username payload2) = true ->
      payload1 = payload2).
Proof.
  assert (Hparsed : forall d jwtMaker now rnd u p,
             JWTMaker_CreateToken d jwtMaker now rnd u = (token, Some p, None) ->
             exists header parts,
               jwt.ParseUnverified token
               = (Some (jwt.mkToken token (Some jwt.SigningMethodHS512) header
                                    (jsonPayload p) "" false), parts, None)).
  { intros d jwtMaker now rnd u p Hcreate.
    unfold JWTMaker_CreateToken, NewPayload in Hcreate.
    destruct (String.eqb u ""); [discriminate Hcreate|].
    destruct rnd as [tokenID|]; [|discriminate Hcreate].
    destruct (SignedString_HMAC_parses jwt.SHA512
                (mkPayload tokenID u now (now + d)) (secretKey jwtMaker))
      as (sh & sc & header & Hsigned & _ & Hparse & _).
    cbv zeta in Hsigned, Hparse.
    set (hd := jwt.EncodeSegment sh) in *. set (c := jwt.EncodeSegment sc) in *.
    unfold jwt.SigningMethodHS512 in Hcreate. rewrite Hsigned in Hcreate.
    injection Hcreate as <- <-. eauto. }
  intros Hcreate1 Hcreate2.
  destruct (Hparsed _ _ _ _ _ _ Hcreate1) as (header1 & parts1 & Hparse1).
  destruct (Hparsed _ _ _ _ _ _ Hcreate2) as (header2 & parts2 & Hparse2).
  rewrite Hparse1 in Hparse2.
  assert (Hjson : jsonPayload payload1 = jsonPayload payload2) by congruence.
  split; [exact Hjson|].
  intros Hvalid1 Hvalid2.
  rewrite <- (jsonPayload_valid payload1 Hvalid1),
          <- (jsonPayload_valid payload2 Hvalid2).
  exact Hjson.
Qed.

(** X6.  What [CreateToken] issues: a string of three segments whose
    header names HS512 and which is authentic under the maker's secret,
    with the payload returned beside it, as JSON gives it back, as its
    claims. *)
Theorem CreateToken_authentic {U : GoStrings.Unicode} {E : jwt.Encoding}
    {L : jwt.EncodingLaws E} (d : Z) (jwtMaker : JWTMaker) (now : Z)
    (rnd : option string) (u token : string) (payload : Payload) :
  JWTMaker_CreateToken d jwtMaker now rnd u = (token, Some payload, None) ->
  List.length (GoStrings.Split token ".") = 3%nat
  /\ claimedAlg token = Some "HS512"
  /\ authenticClaims jwtMaker token = Some (jsonPayload payload).
Proof.
  intros Hcreate.
  unfold JWTMaker_CreateToken, NewPayload in Hcreate.
  destruct (String.eqb u ""); [discriminate Hcreate|].
  destruct rnd as [tokenID|]; [|discriminate Hcreate].
  destruct (SignedString_HMAC_parses jwt.SHA512
              (mkPayload tokenID u now (now + d)) (secretKey jwtMaker))
    as (sh & sc & header & Hsigned & Hsplit & Hparse & Halg & _).
  cbv zeta in Hsigned, Hsplit, Hparse, Halg.
  set (hd := jwt.EncodeSegment sh) in *. set (c := jwt.EncodeSegment sc) in *.
  set (sstr := GoStrings.Join [hd; c] ".") in *.
  set (sig := jwt.EncodeSegment (jwt.hmac _ _ _)) in *.
  set (tk := GoStrings.Join [hd; c; sig] ".") in *.
  unfold jwt.SigningMethodHS512 in Hcreate. rewrite Hsigned in Hcreate.
  injection Hcreate as <- <-.
  split; [rewrite Hsplit; reflexivity|]. split; [exact Halg|].
  unfold jwt.ParseUnverified in Hparse. unfold claimedAlg in Halg.
  unfold authenticClaims. rewrite Hsplit in Hparse, Halg |- *.
  destruct (jwt.DecodeSegment hd) as [hb|]; [|discriminate Halg].
  destruct (jwt.unmarshalHeader hb) as [header'|]; [|discriminate Halg].
  rewrite Halg in Hparse |- *.
  change (hmacHash (jwt.Alg (jwt.SigningMethodHMAC jwt.SHA512)))
    with (Some jwt.SHA512).
  destruct (jwt.DecodeSegment c) as [cb|]; [|discriminate Hparse].
  destruct (jwt.unmarshalClaims cb) as [claims|]; [|discriminate Hparse].
  assert (Hclaims : claims = jsonPayload (mkPayload tokenID u now (now + d))).
  { cbn in Hparse. congruence. }
  subst claims sig.
  rewrite jwt.DecodeSegment_EncodeSegment. fold sstr.
  rewrite String.eqb_refl. reflexivity.
Qed.

(** ** Fields of a header *)

Lemma isASCII_append (s t : string) :
  GoStrings.isASCII (s ++ t) = GoStrings.isASCII s && GoStrings.isASCII t.
Proof.
  induction s as [|a s IH]; [reflexivity|].
  rewrite append_cons. cbn [GoStrings.isASCII]. rewrite IH.
  apply andb_assoc.
Qed.

Lemma spaceFree_append (s t : string) :
  spaceFree (s ++ t) = spaceFree s && spaceFree t.
Proof.
  induction s as [|a s IH]; [reflexivity|].
  rewrite append_cons. cbn [spaceFree]. rewrite IH. apply andb_assoc.
Qed.

Lemma asciiSpace_ascii (c : ascii) :
  GoStrings.asciiSpace c = true -> (N_of_ascii c <? GoStrings.RuneSelf)%N = true.
Proof.
  destruct c as [[] [] [] [] [] [] [] []]; vm_compute; intros Hc;
    first [reflexivity | discriminate Hc].
Qed.

Lemma allSpace_ascii (s : string) :
  allSpace s = true -> GoStrings.isASCII s = true.
Proof.
  induction s as [|c s IH]; [reflexivity|].
  cbn [allSpace GoStrings.isASCII]. intros Hs.
  apply andb_prop in Hs. destruct Hs as [Hc Hs].
  rewrite (asciiSpace_ascii c Hc), (IH Hs). reflexivity.
Qed.

(** The scan reads a stretch without white space into the field at
    hand. *)
Lemma fieldsFrom_word (a cur r : string) :
  spaceFree a = true ->
  GoStrings.fieldsFrom cur (a ++ r) = GoStrings.fieldsFrom (cur ++ a) r.
Proof.
  revert cur. induction a as [|c a IH]; intros cur Hfree.
  - rewrite append_nil_r. reflexivity.
  - rewrite append_cons. cbn [spaceFree GoStrings.fieldsFrom] in Hfree |- *.
    apply andb_prop in Hfree. destruct Hfree as [Hc Ha].
    apply negb_true_iff in Hc. rewrite Hc, (IH _ Ha), append_assoc.
    reflexivity.
Qed.

(** The scan skips white space before a field. *)
Lemma fieldsFrom_space (sp r : string) :
  allSpace sp = true ->
  GoStrings.fieldsFrom "" (sp ++ r) = GoStrings.fieldsFrom "" r.
Proof.
  induction sp as [|c sp IH]; intros Hsp; [reflexivity|].
  rewrite append_cons. cbn [allSpace GoStrings.fieldsFrom] in Hsp |- *.
  apply andb_prop in Hsp. destruct Hsp as [Hc Hsp].
  rewrite Hc. apply (IH Hsp).
Qed.

(** White space after a field ends it. *)
Lemma fieldsFrom_end (cur sp r : string) :
  cur <> "" -> sp <> "" -> allSpace sp = true ->
  GoStrings.fieldsFrom cur (sp ++ r) = cur :: GoStrings.fieldsFrom "" r.
Proof.
  intros Hcur Hne Hsp. destruct sp as [|c sp]; [congruence|].
  rewrite append_cons. cbn [allSpace GoStrings.fieldsFrom] in Hsp |- *.
  apply andb_prop in Hsp. destruct Hsp as [Hc Hsp].
  rewrite Hc, (fieldsFrom_space sp r Hsp).
  destruct cur; [congruence|reflexivity].
Qed.

Lemma word_parts (s : string) :
  word s = true ->
  GoStrings.isASCII s = true /\ s <> "" /\ spaceFree s = true.
Proof.
  unfold word. intros Hw.
  apply andb_prop in Hw. destruct Hw as [Hw Hfree].
  apply andb_prop in Hw. destruct Hw as [Hascii Hne].
  apply negb_true_iff, String.eqb_neq in Hne. auto.
Qed.

(** Two words, with white space between them and any white space around
    them, are the two fields of the string. *)
Lemma Fields_two_words {U : GoStrings.Unicode} (sp1 a sp2 b sp3 : string) :
  word a = true -> word b = true ->
  allSpace sp1 = true -> allSpace sp2 = true -> allSpace sp3 = true ->
  sp2 <> "" ->
  GoStrings.Fields (sp1 ++ a ++ sp2 ++ b ++ sp3) = [a; b].
Proof.
  intros Ha Hb H1 H2 H3 Hne.
  destruct (word_parts a Ha) as (Haa & Han & Haf).
  destruct (word_parts b Hb) as (Hba & Hbn & Hbf).
  unfold GoStrings.Fields.
  rewrite !isASCII_append, Haa, Hba, !allSpace_ascii by assumption.
  cbn [andb].
  rewrite (fieldsFrom_space sp1 _ H1), (fieldsFrom_word a "" _ Haf).
  change ("" ++ a) with a.
  rewrite (fieldsFrom_end a sp2 _ Han Hne H2), (fieldsFrom_word b "" _ Hbf).
  change ("" ++ b) with b.
  destruct sp3 as [|c sp3].
  - cbn. destruct b; [congruence|reflexivity].
  - rewrite <- (append_nil_r (String c sp3)).
    rewrite (fieldsFrom_end b (String c sp3) "" Hbn) by (congruence || assumption).
    reflexivity.
Qed.

(** One word, with any white space around it, is the one field. *)
Lemma Fields_one_word {U : GoStrings.Unicode} (sp1 a sp3 : string) :
  word a = true -> allSpace sp1 = true -> allSpace sp3 = true ->
  GoStrings.Fields (sp1 ++ a ++ sp3) = [a].
Proof.
  intros Ha H1 H3.
  destruct (word_parts a Ha) as (Haa & Han & Haf).
  unfold GoStrings.Fields.
  rewrite !isASCII_append, Haa, !allSpace_ascii by assumption.
  cbn [andb].
  rewrite (fieldsFrom_space sp1 _ H1), (fieldsFrom_word a "" _ Haf).
  change ("" ++ a) with a.
  destruct sp3 as [|c sp3].
  - cbn. destruct a; [congruence|reflexivity].
  - rewrite <- (append_nil_r (String c sp3)).
    rewrite (fieldsFrom_end a (String c sp3) "" Han) by (congruence || assumption).
    reflexivity.
Qed.

(** The fields that the scan of an ASCII string returns are words. *)
Lemma fieldsFrom_words (s cur : string) :
  GoStrings.isASCII s = true ->
  GoStrings.isASCII cur = true -> spaceFree cur = true ->
  Forall (fun f => word f = true) (GoStrings.fieldsFrom cur s).
Proof.
  revert cur. induction s as [|c s IH]; intros cur Hs Hcur Hfree.
  - cbn. destruct cur as [|a cur]; constructor; [|constructor].
    unfold word. rewrite Hcur, Hfree. reflexivity.
  - cbn [GoStrings.isASCII GoStrings.fieldsFrom] in Hs |- *.
    apply andb_prop in Hs. destruct Hs as [Hc Hs].
    destruct (GoStrings.asciiSpace c) eqn:Hspace.
    + apply Forall_app. split.
      * destruct cur as [|a cur]; constructor; [|constructor].
        unfold word. rewrite Hcur, Hfree. reflexivity.
      * apply IH; [exact Hs|reflexivity|reflexivity].
    + apply IH; [exact Hs| |].
      * rewrite isASCII_append, Hcur. cbn [GoStrings.isASCII].
        rewrite Hc. reflexivity.
      * rewrite spaceFree_append, Hfree. cbn [spaceFree].
        rewrite Hspace. reflexivity.
Qed.

(** ** The middleware, further *)

(** With fewer than two fields in the header nothing is asked of the
    maker. *)
Lemma authMiddleware_short {U : GoStrings.Unicode} {W : Type}
    (tokenMaker : Maker) (now : Z) (next : gin.Context -> W -> Outcome W)
    (ctx : gin.Context) (w : W) :
  (List.length (GoStrings.Fields (gin.GetHeader ctx authorizationHeaderKey)) < 2)%nat ->
  exists err, authMiddleware tokenMaker now next ctx w = rejected ctx w err
              /\ forall tokenMaker', authMiddleware tokenMaker' now next ctx w
                                     = rejected ctx w err.
Proof.
  intros Hshort. unfold authMiddleware.
  apply Nat.ltb_lt in Hshort. rewrite Hshort.
  destruct (String.length (gin.GetHeader ctx authorizationHeaderKey) =? 0)%nat;
    eexists; split; reflexivity.
Qed.

(** X7.  White space in the header: when the authorization header is a
    scheme and a token, each a word, with any ASCII white space between
    them and any before and after, the middleware takes the scheme and
    hands exactly the token to the verification (or rejects the scheme, by
    its lower-cased name). *)
Theorem authMiddleware_header_white_space {U : GoStrings.Unicode} {W : Type}
    (tokenMaker : Maker) (now : Z) (next : gin.Context -> W -> Outcome W)
    (ctx : gin.Context) (w : W) (sp1 scheme sp2 token sp3 : string) :
  gin.GetHeader ctx authorizationHeaderKey
    = sp1 ++ scheme ++ sp2 ++ token ++ sp3 ->
  word scheme = true -> word token = true ->
  allSpace sp1 = true -> allSpace sp2 = true -> allSpace sp3 = true ->
  sp2 <> "" ->
  authMiddleware tokenMaker now next ctx w
    = if String.eqb (GoStrings.ToLower scheme) "bearer"
      then tokenVerify tokenMaker now next ctx w token
      else rejected ctx w (errorString ("unsupported authorization type "
                                        ++ GoStrings.ToLower scheme)).
Proof.
  intros Hheader Hscheme Htoken H1 H2 H3 Hne.
  apply authMiddleware_fields with (rest := []).
  rewrite Hheader. apply Fields_two_words; assumption.
Qed.

(** X8.  The middleware asks the maker about words only: on a request
    whose authorization header is ASCII, two makers whose [VerifyToken]
    agree on every non-empty string without white space give the same
    outcome.  No empty token and no token with white space reaches
    [VerifyToken]. *)
Theorem authMiddleware_verifies_words_only {U : GoStrings.Unicode} {W : Type}
    (tokenMaker1 tokenMaker2 : Maker) (now : Z)
    (next : gin.Context -> W -> Outcome W) (ctx : gin.Context) (w : W) :
  GoStrings.isASCII (gin.GetHeader ctx authorizationHeaderKey) = true ->
  (forall token, word token = true ->
                 VerifyToken tokenMaker1 now token = VerifyToken tokenMaker2 now token) ->
  authMiddleware tokenMaker1 now next ctx w
    = authMiddleware tokenMaker2 now next ctx w.
Proof.
  intros Hascii Hagree.
  pose proof (fieldsFrom_words (gin.GetHeader ctx authorizationHeaderKey) ""
                Hascii eq_refl eq_refl) as Hwords.
  assert (Hfields : GoStrings.Fields (gin.GetHeader ctx authorizationHeaderKey)
                    = GoStrings.fieldsFrom "" (gin.GetHeader ctx authorizationHeaderKey)).
  { unfold GoStrings.Fields. rewrite Hascii. reflexivity. }
  rewrite <- Hfields in Hwords.
  destruct (GoStrings.Fields (gin.GetHeader ctx authorizationHeaderKey))
    as [|f0 [|f1 rest]] eqn:Hf.
  - destruct (authMiddleware_short tokenMaker1 now next ctx w) as (err & -> & ->);
      [rewrite Hf; cbn; lia|reflexivity].
  - destruct (authMiddleware_short tokenMaker1 now next ctx w) as (err & -> & ->);
      [rewrite Hf; cbn; lia|reflexivity].
  - rewrite !(authMiddleware_fields _ _ _ _ _ _ _ _ Hf).
    unfold tokenVerify. rewrite Hagree; [reflexivity|].
    inversion Hwords as [|? ? _ Hrest]. inversion Hrest. assumption.
Qed.

(** X9.  Success: when the header has the bearer scheme and the maker
    returns a payload without an error for the second field, the rest of
    the chain runs on the context with the payload under the key
    "payload"; every other key, the headers, the abort flag and the
    response are as they were. *)
Theorem authMiddleware_success {U : GoStrings.Unicode} {W : Type}
    (tokenMaker : Maker) (now : Z) (next : gin.Context -> W -> Outcome W)
    (ctx : gin.Context) (w : W) (fields0 fields1 : string) (rest : list string)
    (payload : Payload) :
  GoStrings.Fields (gin.GetHeader ctx authorizationHeaderKey)
    = fields0 :: fields1 :: rest ->
  GoStrings.ToLower fields0 = "bearer" ->
  VerifyToken tokenMaker now fields1 = (Some payload, None) ->
  exists ctx',
    authMiddleware tokenMaker now next ctx w = next ctx' w
    /\ gin.Keys ctx' !! authorizationPayloadKey = Some payload
    /\ (forall key, key <> authorizationPayloadKey ->
                    gin.Keys ctx' !! key = gin.Keys ctx !! key)
    /\ gin.Header ctx' = gin.Header ctx
    /\ gin.IsAborted ctx' = gin.IsAborted ctx
    /\ gin.Written ctx' = gin.Written ctx.
Proof.
  intros Hfields Hbearer Hvalid.
  exists (gin.Set_ ctx authorizationPayloadKey payload).
  split; [|split; [|split; [|repeat split]]].
  - rewrite (authMiddleware_fields _ _ _ _ _ _ _ _ Hfields), Hbearer.
    unfold tokenVerify. rewrite Hvalid. reflexivity.
  - unfold gin.Set_. cbn [gin.Keys]. apply lookup_insert_eq.
  - intros key Hkey. unfold gin.Set_. cbn [gin.Keys].
    apply lookup_insert_ne. congruence.
Qed.

(** X10.  The outcomes of the middleware: the goroutine panics, or the
    request is rejected - aborted with status 401, nothing set on the
    context, the state of the collaborators untouched - or the rest of the
    chain runs, and then the header had the bearer scheme and the maker
    returned the payload, without an error, for its second field.  No
    request goes on without a payload that the maker returned. *)
Theorem authMiddleware_outcomes {U : GoStrings.Unicode} {W : Type}
    (tokenMaker : Maker) (now : Z) (next : gin.Context -> W -> Outcome W)
    (ctx : gin.Context) (w : W) :
  authMiddleware tokenMaker now next ctx w = Panicked
  \/ (exists err, authMiddleware tokenMaker now next ctx w = rejected ctx w err)
  \/ (exists fields0 fields1 rest payload,
        GoStrings.Fields (gin.GetHeader ctx authorizationHeaderKey)
          = fields0 :: fields1 :: rest
        /\ GoStrings.ToLower fields0 = "bearer"
        /\ VerifyToken tokenMaker now fields1 = (Some payload, None)
        /\ authMiddleware tokenMaker now next ctx w
           = next (gin.Set_ ctx authorizationPayloadKey payload) w).
Proof.
  destruct (GoStrings.Fields (gin.GetHeader ctx authorizationHeaderKey))
    as [|f0 [|f1 rest]] eqn:Hf.
  - right; left.
    destruct (authMiddleware_short tokenMaker now next ctx w) as (err & Herr & _);
      [rewrite Hf; cbn; lia|eauto].
  - right; left.
    destruct (authMiddleware_short tokenMaker now next ctx w) as (err & Herr & _);
      [rewrite Hf; cbn; lia|eauto].
  - rewrite (authMiddleware_fields _ _ _ _ _ _ _ _ Hf).
    destruct (String.eqb_spec (GoStrings.ToLower f0) authorizationTypeBearer)
      as [Hbearer|_]; [|right; left; eauto].
    unfold tokenVerify.
    destruct (VerifyToken tokenMaker now f1) as [[payload|] [err|]] eqn:Hverify.
    + right; left. eexists. reflexivity.
    + right; right. exists f0, f1, rest, payload. auto.
    + left. reflexivity.
    + left. reflexivity.
Qed.

(** X11.  Behind the middleware of a [JWTMaker], the rest of the chain
    runs only on the claims of a token that is authentic under the maker's
    secret and has not expired: whenever the middleware neither panics nor
    rejects, the second field of the header is such a token and its claims
    are the payload set on the context. *)
Theorem authMiddleware_passes_authentic_only {U : GoStrings.Unicode}
    {E : jwt.Encoding} {W : Type} (d : Z) (jwtMaker : JWTMaker) (now : Z)
    (next : gin.Context -> W -> Outcome W) (ctx : gin.Context) (w : W) :
  let outcome := authMiddleware (JWTMaker_Maker d jwtMaker) now next ctx w in
  outcome = Panicked
  \/ (exists err, outcome = rejected ctx w err)
  \/ (exists fields0 fields1 rest claims,
        GoStrings.Fields (gin.GetHeader ctx authorizationHeaderKey)
          = fields0 :: fields1 :: rest
        /\ authenticClaims jwtMaker fields1 = Some claims
        /\ now <= ExpireAt claims
        /\ outcome = next (gin.Set_ ctx authorizationPayloadKey claims) w).
Proof.
  intros outcome. subst outcome.
  destruct (GoStrings.Fields (gin.GetHeader ctx authorizationHeaderKey))
    as [|f0 [|f1 rest]] eqn:Hf.
  - right; left.
    destruct (authMiddleware_short (JWTMaker_Maker d jwtMaker) now next ctx w)
      as (err & Herr & _); [rewrite Hf; cbn; lia|eauto].
  - right; left.
    destruct (authMiddleware_short (JWTMaker_Maker d jwtMaker) now next ctx w)
      as (err & Herr & _); [rewrite Hf; cbn; lia|eauto].
  - rewrite (authMiddleware_fields _ _ _ _ _ _ _ _ Hf).
    destruct (String.eqb (GoStrings.ToLower f0) authorizationTypeBearer);
      [|right; left; eauto].
    unfold tokenVerify. cbn [VerifyToken JWTMaker_Maker].
    rewrite JWTMaker_VerifyToken_closed_form.
    destruct (authenticClaims jwtMaker f1) as [claims|] eqn:Hclaims;
      [|left; reflexivity].
    destruct (Z.ltb_spec (ExpireAt claims) now) as [Hlt|Hge];
      [left; reflexivity|].
    right; right. exists f0, f1, rest, claims. auto.
Qed.

(** ** The test helper and the middleware *)

Lemma GetHeader_Header_Add (request : gin.Context) (value : string)
    (keys : gmap string Payload) (aborted : bool)
    (written : option (Z * option error)) :
  gin.Header request !! "Authorization" = None ->
  gin.GetHeader
    (gin.mkContext (Header_Add (gin.Header request) authorizationHeaderKey value)
                   keys aborted written)
    authorizationHeaderKey = value.
Proof.
  intros Hnone. unfold gin.GetHeader, Header_Add. cbn [gin.Header].
  change (gin.CanonicalMIMEHeaderKey authorizationHeaderKey) with "Authorization".
  rewrite lookup_insert_eq, Hnone. reflexivity.
Qed.

(** X12.  The header that [addAuthHeader] writes is read back by the
    middleware: on a request without an authorization header, for a type
    and a token that are words, [addAuthHeader] leaves the value
    "<type> <token>", and the middleware takes the type as the scheme and
    hands exactly the token that the maker created to the verification (or
    rejects the type, by its lower-cased name). *)
Theorem addAuthHeader_authMiddleware {U : GoStrings.Unicode} {W : Type}
    (createToken : string -> Z -> string * option error)
    (tokenMaker : Maker) (now : Z) (next : gin.Context -> W -> Outcome W)
    (request : gin.Context) (w : W)
    (authHeaderType username token : string) (duration : Z) :
  gin.Header request !! "Authorization" = None ->
  createToken username duration = (token, None) ->
  word authHeaderType = true ->
  word token = true ->
  exists ctx,
    addAuthHeader createToken request authHeaderType username duration = Some ctx
    /\ gin.GetHeader ctx authorizationHeaderKey = authHeaderType ++ " " ++ token
    /\ authMiddleware tokenMaker now next ctx w
       = if String.eqb (GoStrings.ToLower authHeaderType) "bearer"
         then tokenVerify tokenMaker now next ctx w token
         else rejected ctx w (errorString ("unsupported authorization type "
                                           ++ GoStrings.ToLower authHeaderType)).
Proof.
  intros Hnone Hcreate Htype Htoken.
  unfold addAuthHeader. rewrite Hcreate.
  eexists. split; [reflexivity|].
  pose proof (GetHeader_Header_Add request (authHeaderType ++ " " ++ token)
                (gin.Keys request) (gin.IsAborted request) (gin.Written request)
                Hnone) as Hheader.
  split; [exact Hheader|].
  apply authMiddleware_fields with (rest := []).
  rewrite Hheader.
  rewrite <- (append_nil_r token) at 1.
  apply (Fields_two_words "" authHeaderType " " token "");
    (assumption || reflexivity || discriminate).
Qed.

(** X13.  An empty type: on a request without an authorization header, for
    a token that is a word, the header that [addAuthHeader] writes with
    the type [""] has one field, and the middleware rejects it with
    "invalid authorization format", whatever the maker. *)
Theorem addAuthHeader_empty_type {U : GoStrings.Unicode} {W : Type}
    (createToken : string -> Z -> string * option error)
    (tokenMaker : Maker) (now : Z) (next : gin.Context -> W -> Outcome W)
    (request : gin.Context) (w : W) (username token : string) (duration : Z) :
  gin.Header request !! "Authorization" = None ->
  createToken username duration = (token, None) ->
  word token = true ->
  exists ctx,
    addAuthHeader createToken request "" username duration = Some ctx
    /\ authMiddleware tokenMaker now next ctx w
       = rejected ctx w (errorString "invalid authorization format").
Proof.
  intros Hnone Hcreate Htoken.
  unfold addAuthHeader. rewrite Hcreate.
  eexists. split; [reflexivity|].
  pose proof (GetHeader_Header_Add request ("" ++ " " ++ token)
                (gin.Keys request) (gin.IsAborted request) (gin.Written request)
                Hnone) as Hheader.
  assert (Hfields : GoStrings.Fields ("" ++ " " ++ token) = [token]).
  { change ("" ++ " " ++ token) with (" " ++ token).
    rewrite <- (append_nil_r token) at 1.
    apply (Fields_one_word " " token ""); (assumption || reflexivity). }
  unfold authMiddleware. rewrite Hheader, Hfields. reflexivity.
Qed.

(** ** The properties at sample inputs *)

(** From here on the encoding and the Unicode functions are the sample
    ones. *)
Import Sample.

(** A token whose header claims RS256 is rejected. *)
Lemma VerifyToken_rejects_RS256 :
  claimedAlg (Sample.forged "RS256" "") = Some "RS256"
  /\ JWTMaker_VerifyToken (mkJWTMaker Sample.secret) 1000 (Sample.forged "RS256" "")
     = (None, Some ErrTokenInvalid).
Proof.
  split; [vm_compute; reflexivity|].
  apply (VerifyToken_rejects_other_algorithms
           (mkJWTMaker Sample.secret) 1000 (Sample.forged "RS256" "") "RS256");
    vm_compute; reflexivity.
Defined.

(** A malformed token and a token signed with another key are both
    answered with [ErrTokenInvalid]. *)
Lemma VerifyToken_error_kinds_sample :
  JWTMaker_VerifyToken (mkJWTMaker Sample.secret) 1000 "abc"
    = (None, Some ErrTokenInvalid)
  /\ JWTMaker_VerifyToken (mkJWTMaker Sample.secret) 1000 Sample.foreign
     = (None, Some ErrTokenInvalid)
  /\ JWTMaker_VerifyToken (mkJWTMaker Sample.secret) 1000 Sample.expired
     = (None, Some ErrTokenExpired).
Proof.
  split; [|split].
  - apply (proj2 (VerifyToken_error_kinds (mkJWTMaker Sample.secret) 1000 "abc")
             (ValidationError None jwt.ValidationErrorMalformed)).
    vm_compute; reflexivity.
  - apply (proj2 (VerifyToken_error_kinds (mkJWTMaker Sample.secret) 1000
                    Sample.foreign)
             (ValidationError (Some ErrSignatureInvalid)
                              jwt.ValidationErrorSignatureInvalid)).
    vm_compute; reflexivity.
  - apply (proj2 (VerifyToken_error_kinds (mkJWTMaker Sample.secret) 1000
                    Sample.expired)
             (ValidationError (Some ErrTokenExpired)
                              jwt.ValidationErrorClaimsInvalid)).
    vm_compute; reflexivity.
Defined.

(** The code does not distinguish a malformed token from one whose
    signature fails: the claim C3 as the specification states it is
    false. *)
Lemma causes_not_distinguished :
  ~ @causes_distinguished Sample.unicode Sample.encoding.
Proof.
  intros Hclaim.
  apply (Hclaim (mkJWTMaker Sample.secret) 1000 "abc" Sample.foreign
           (ValidationError None jwt.ValidationErrorMalformed)
           (ValidationError (Some ErrSignatureInvalid)
                            jwt.ValidationErrorSignatureInvalid)).
  - vm_compute; reflexivity.
  - vm_compute; reflexivity.
  - vm_compute; discriminate.
  - vm_compute; reflexivity.
Qed.

(** A token issued with a life time of 900 verifies at once. *)
Lemma CreateToken_VerifyToken_sample :
  exists token payload,
    CreateToken Sample.maker 1000 (Some "id1") "bob" = (token, Some payload, None)
    /\ VerifyToken Sample.maker (1000 + 0) token = (Some payload, None)
    /\ Username payload = "bob"
    /\ Valid (1000 + 0) payload = None.
Proof.
  apply (CreateToken_VerifyToken_roundtrip (L := Sample_encoding_laws)
           900 Sample.secret Sample.maker 1000 0 "id1" "bob").
  - reflexivity.
  - discriminate.
  - reflexivity.
  - lia.
  - lia.
Defined.

(** The identity of the one byte 0xFF is not valid UTF-8: the token
    carries U+FFFD in its place, and that is the identity [VerifyToken]
    returns.  The claim C4 as the specification states it, for every
    identity, is false. *)
Lemma roundtrip_not_every_identity :
  ~ @roundtrip_every_identity Sample.unicode Sample.encoding.
Proof.
  intros Hclaim.
  specialize (Hclaim 900 Sample.secret Sample.maker 1000 "id1" (String "255" "")
                     eq_refl).
  assert (Hname : String "255" "" <> "") by discriminate.
  assert (Hd : 0 < 900) by lia.
  specialize (Hclaim Hname Hd).
  vm_compute in Hclaim.
  destruct Hclaim as (_ & payload' & Hverify & Hidentity & _).
  injection Hverify as <-. discriminate Hidentity.
Qed.

(** A token issued with a life time of -60 is expired at once. *)
Lemma VerifyToken_expired_sample :
  exists token payload,
    CreateToken Sample.expiringMaker 1000 (Some "id2") "bob"
      = (token, Some payload, None)
    /\ VerifyToken Sample.expiringMaker (1000 + 0) token
       = (None, Some ErrTokenExpired).
Proof.
  apply (VerifyToken_expired (L := Sample_encoding_laws)
           (-60) Sample.secret Sample.expiringMaker 1000 0 "id2" "bob").
  - reflexivity.
  - discriminate.
  - lia.
  - lia.
Defined.

(** The four outcomes of the header checks: no header, one field, another
    scheme, and "BeArEr" with a token. *)
Lemma authMiddleware_header_checks_sample :
  authMiddleware Sample.maker 1000 Sample.ok (gin.request ∅) tt
    = rejected (gin.request ∅) tt (errorString "authorization header not provided")
  /\ authMiddleware Sample.maker 1000 Sample.ok (Sample.requestWith "bearer") tt
     = rejected (Sample.requestWith "bearer") tt
                (errorString "invalid authorization format")
  /\ authMiddleware Sample.maker 1000 Sample.ok (Sample.requestWith "OAuth xyz") tt
     = rejected (Sample.requestWith "OAuth xyz") tt
                (errorString "unsupported authorization type oauth")
  /\ authMiddleware Sample.maker 1000 Sample.ok
       (Sample.requestWith ("BeArEr " ++ Sample.issued)) tt
     = tokenVerify Sample.maker 1000 Sample.ok
         (Sample.requestWith ("BeArEr " ++ Sample.issued)) tt Sample.issued.
Proof.
  split; [|split; [|split]].
  - apply (proj1 (authMiddleware_header_checks
                    Sample.maker 1000 Sample.ok (gin.request ∅) tt)).
    reflexivity.
  - apply (proj1 (proj2 (authMiddleware_header_checks
                           Sample.maker 1000 Sample.ok
                           (Sample.requestWith "bearer") tt))).
    + discriminate.
    + vm_compute. lia.
  - apply (proj1 (proj2 (proj2 (authMiddleware_header_checks
                                  Sample.maker 1000 Sample.ok
                                  (Sample.requestWith "OAuth xyz") tt)))
             "OAuth" "xyz" []).
    + reflexivity.
    + discriminate.
  - apply (proj2 (proj2 (proj2 (authMiddleware_header_checks
                                  Sample.maker 1000 Sample.ok
                                  (Sample.requestWith ("BeArEr " ++ Sample.issued)) tt)))
             "BeArEr" Sample.issued []).
    + vm_compute; reflexivity.
    + right. reflexivity.
Defined.

(** The header "OAuth xyz" is rejected with a text that names the type:
    the claim C7 as the specification states it is false. *)
Lemma scheme_not_rejected_with_fixed_text :
  ~ @scheme_rejected_with_fixed_text Sample.unicode.
Proof.
  intros Hclaim.
  specialize (Hclaim Sample.maker 1000 Sample.ok (Sample.requestWith "OAuth xyz")
                     "OAuth" "xyz" [] eq_refl).
  assert (Hother : GoStrings.ToLower "OAuth" <> authorizationTypeBearer)
    by discriminate.
  specialize (Hclaim Hother). vm_compute in Hclaim. discriminate Hclaim.
Qed.

(** A header of four fields: the second is the token verified. *)
Lemma authMiddleware_extra_fields_sample :
  authMiddleware Sample.maker 1000 Sample.ok
    (Sample.requestWith ("Bearer " ++ Sample.issued ++ " more fields")) tt
  = tokenVerify Sample.maker 1000 Sample.ok
      (Sample.requestWith ("Bearer " ++ Sample.issued ++ " more fields")) tt
      Sample.issued.
Proof.
  apply (authMiddleware_extra_fields Sample.maker 1000 Sample.ok
           (Sample.requestWith ("Bearer " ++ Sample.issued ++ " more fields")) tt
           "Bearer" Sample.issued "more" ["fields"]).
  - vm_compute; reflexivity.
  - reflexivity.
Defined.

(** C1, at what the code does.  The request "bearer abc" reaches the
    verification, [VerifyToken] returns the error [ErrTokenInvalid] with a
    nil payload, and the middleware panics: no 401 is written. *)
Theorem authMiddleware_invalid_token_panics :
  GoStrings.Fields (gin.GetHeader (Sample.requestWith "bearer abc")
                                  authorizationHeaderKey) = ["bearer"; "abc"]
  /\ VerifyToken Sample.maker 1000 "abc" = (None, Some ErrTokenInvalid)
  /\ authMiddleware Sample.maker 1000 Sample.ok (Sample.requestWith "bearer abc") tt
     = Panicked.
Proof. split; [|split]; vm_compute; reflexivity. Qed.

(** The request with an expired token panics. *)
Lemma authMiddleware_expired_token_panics :
  authMiddleware Sample.expiringMaker 1000 Sample.ok
    (Sample.requestWith ("bearer " ++ Sample.expired)) tt
  = Panicked.
Proof.
  apply (authMiddleware_failed_verification_panics
           (-60) (mkJWTMaker Sample.secret) 1000 Sample.ok
           (Sample.requestWith ("bearer " ++ Sample.expired)) tt
           "bearer" Sample.expired [] ErrTokenExpired).
  - vm_compute; reflexivity.
  - reflexivity.
  - vm_compute; reflexivity.
Defined.

(** The deletion of the account 7 of "bob": carried out for "bob", and for
    an account that is not there answered with 404. *)
Lemma deleteAccount_ownership_sample :
  authMiddleware Sample.maker 1000 (deleteAccount 7)
    (Sample.requestWith ("bearer " ++ Sample.issued)) Sample.accounts
  = Returned (gin.JSON (gin.Set_ (Sample.requestWith ("bearer " ++ Sample.issued))
                                 authorizationPayloadKey
                                 (mkPayload "id1" "bob" 1000 1900))
                       StatusOK None) ∅.
Proof.
  apply (proj1 (proj2 (proj2
           (deleteAccount_ownership Sample.maker 1000
              (Sample.requestWith ("bearer " ++ Sample.issued)) Sample.accounts 7
              "bearer" Sample.issued [] (mkPayload "id1" "bob" 1000 1900)
              ltac:(vm_compute; reflexivity) ltac:(reflexivity)
              ltac:(vm_compute; reflexivity) ltac:(lia))))
           (mkAccount 7 "bob" 100 "USD")).
  - vm_compute; reflexivity.
  - reflexivity.
Defined.

(** ** Further properties at sample inputs *)

(** A token signed with HS256 under the secret verifies. *)
Lemma VerifyToken_accepts_HS256 :
  exists token,
    jwt.SignedString
      (jwt.NewWithClaims (jwt.SigningMethodHMAC jwt.SHA256)
                         (mkPayload "id5" "bob" 1000 1900))
      (jwt.KeyBytes Sample.secret) = (token, None)
    /\ claimedAlg token = Some "HS256"
    /\ JWTMaker_VerifyToken (mkJWTMaker Sample.secret) 1500 token
       = (Some (mkPayload "id5" "bob" 1000 1900), None).
Proof.
  exact (VerifyToken_accepts_every_HMAC (L := Sample_encoding_laws)
           jwt.SHA256 (mkPayload "id5" "bob" 1000 1900)
           (mkJWTMaker Sample.secret) 1500).
Defined.

(** A token of 900 nanoseconds verifies 900 nanoseconds after its
    creation, and is expired one nanosecond later. *)
Lemma VerifyToken_life_time_sample :
  (exists token payload,
     CreateToken Sample.maker 1000 (Some "id1") "bob" = (token, Some payload, None)
     /\ VerifyToken Sample.maker (1000 + 900) token
        = (Some (jsonPayload payload), None))
  /\ (exists token payload,
        CreateToken Sample.maker 1000 (Some "id1") "bob" = (token, Some payload, None)
        /\ VerifyToken Sample.maker (1000 + 901) token = (None, Some ErrTokenExpired)).
Proof.
  split.
  - apply (VerifyToken_life_time (L := Sample_encoding_laws)
             900 Sample.secret Sample.maker 1000 900 "id1" "bob");
      [reflexivity|discriminate].
  - apply (VerifyToken_life_time (L := Sample_encoding_laws)
             900 Sample.secret Sample.maker 1000 901 "id1" "bob");
      [reflexivity|discriminate].
Defined.

(** The token of the other secret is rejected. *)
Lemma VerifyToken_other_secret_sample :
  JWTMaker_VerifyToken (mkJWTMaker Sample.secret) 1000 Sample.foreign
    = (None, Some ErrTokenInvalid).
Proof.
  apply (VerifyToken_other_secret (L := Sample_encoding_laws)
           900 Sample.otherSecret Sample.secret 1000 1000 "id3" "bob"
           Sample.foreign (mkPayload "id3" "bob" 1000 1900)).
  - vm_compute; reflexivity.
  - vm_compute; discriminate.
Defined.

(** The token [issued] names the payload of "bob". *)
Lemma CreateToken_token_injective_sample :
  jsonPayload (mkPayload "id1" "bob" 1000 1900)
    = jsonPayload (mkPayload "id1" "bob" 1000 (1000 + 900))
  /\ (utf8.ValidString "bob" = true -> utf8.ValidString "bob" = true ->
      mkPayload "id1" "bob" 1000 1900 = mkPayload "id1" "bob" 1000 (1000 + 900)).
Proof.
  apply (CreateToken_token_injective (L := Sample_encoding_laws)
           900 900 (mkJWTMaker Sample.secret) (mkJWTMaker Sample.secret)
           1000 1000 (Some "id1") (Some "id1") "bob" "bob" Sample.issued).
  - vm_compute; reflexivity.
  - vm_compute; reflexivity.
Defined.

(** The token [issued] is authentic, with the claims of "bob". *)
Lemma CreateToken_authentic_sample :
  List.length (GoStrings.Split Sample.issued ".") = 3%nat
  /\ claimedAlg Sample.issued = Some "HS512"
  /\ authenticClaims (mkJWTMaker Sample.secret) Sample.issued
     = Some (jsonPayload (mkPayload "id1" "bob" 1000 1900)).
Proof.
  apply (CreateToken_authentic (L := Sample_encoding_laws)
           900 (mkJWTMaker Sample.secret) 1000 (Some "id1") "bob").
  vm_compute; reflexivity.
Defined.

(** Tabs and spaces around "Bearer" and the token. *)
Lemma authMiddleware_header_white_space_sample :
  authMiddleware Sample.maker 1000 Sample.ok
    (Sample.requestWith ("  " ++ "Bearer" ++ (String "009" " ") ++ Sample.issued ++ " ")) tt
  = tokenVerify Sample.maker 1000 Sample.ok
      (Sample.requestWith ("  " ++ "Bearer" ++ (String "009" " ") ++ Sample.issued ++ " ")) tt
      Sample.issued.
Proof.
  apply (authMiddleware_header_white_space Sample.maker 1000 Sample.ok
           (Sample.requestWith ("  " ++ "Bearer" ++ (String "009" " ") ++ Sample.issued ++ " ")) tt
           "  " "Bearer" (String "009" " ") Sample.issued " ");
    try (vm_compute; reflexivity).
  discriminate.
Defined.

(** On "bearer abc" the maker and its variant off words agree. *)
Lemma authMiddleware_verifies_words_only_sample :
  authMiddleware Sample.maker 1000 Sample.ok (Sample.requestWith "bearer abc") tt
  = authMiddleware (lenientOffWords Sample.maker) 1000 Sample.ok
      (Sample.requestWith "bearer abc") tt.
Proof.
  apply (authMiddleware_verifies_words_only Sample.maker
           (lenientOffWords Sample.maker) 1000 Sample.ok
           (Sample.requestWith "bearer abc") tt).
  - reflexivity.
  - intros token Hword. cbn [VerifyToken lenientOffWords]. rewrite Hword.
    reflexivity.
Defined.

(** The request with the token [issued] goes on with the payload of
    "bob". *)
Lemma authMiddleware_success_sample :
  exists ctx',
    authMiddleware Sample.maker 1000 Sample.ok
      (Sample.requestWith ("bearer " ++ Sample.issued)) tt = Sample.ok ctx' tt
    /\ gin.Keys ctx' !! authorizationPayloadKey
       = Some (mkPayload "id1" "bob" 1000 1900)
    /\ (forall key, key <> authorizationPayloadKey ->
                    gin.Keys ctx' !! key
                    = gin.Keys (Sample.requestWith ("bearer " ++ Sample.issued)) !! key)
    /\ gin.Header ctx' = gin.Header (Sample.requestWith ("bearer " ++ Sample.issued))
    /\ gin.IsAborted ctx' = false
    /\ gin.Written ctx' = None.
Proof.
  apply (authMiddleware_success Sample.maker 1000 Sample.ok
           (Sample.requestWith ("bearer " ++ Sample.issued)) tt
           "bearer" Sample.issued [] (mkPayload "id1" "bob" 1000 1900)).
  - vm_compute; reflexivity.
  - reflexivity.
  - vm_compute; reflexivity.
Defined.

(** [addAuthHeader] with the type "OAuth", then the middleware. *)
Lemma addAuthHeader_authMiddleware_sample :
  exists ctx,
    addAuthHeader (fun _ _ => (Sample.issued, None))
                  (gin.request ∅) "OAuth" "bob" 900 = Some ctx
    /\ gin.GetHeader ctx authorizationHeaderKey = "OAuth" ++ " " ++ Sample.issued
    /\ authMiddleware Sample.maker 1000 Sample.ok ctx tt
       = rejected ctx tt (errorString "unsupported authorization type oauth").
Proof.
  apply (addAuthHeader_authMiddleware
           (fun _ _ => (Sample.issued, None))
           Sample.maker 1000 Sample.ok (gin.request ∅) tt
           "OAuth" "bob" Sample.issued 900).
  - reflexivity.
  - vm_compute; reflexivity.
  - reflexivity.
  - vm_compute; reflexivity.
Defined.

(** [addAuthHeader] with the empty type, then the middleware. *)
Lemma addAuthHeader_empty_type_sample :
  exists ctx,
    addAuthHeader (fun _ _ => (Sample.issued, None))
                  (gin.request ∅) "" "bob" 900 = Some ctx
    /\ authMiddleware Sample.maker 1000 Sample.ok ctx tt
       = rejected ctx tt (errorString "invalid authorization format").
Proof.
  apply (addAuthHeader_empty_type
           (fun _ _ => (Sample.issued, None))
           Sample.maker 1000 Sample.ok (gin.request ∅) tt "bob" Sample.issued 900).
  - reflexivity.
  - vm_compute; reflexivity.
  - vm_compute; reflexivity.
Defined.
